(** * buildlib/generic.py: the sandbox preparation pipeline of [GenericPlatform]

    A shallow embedding of [src/buildlib/generic.py].  Python [bytes] are
    [list byte], Python [str] is [string] (one character per byte: the locale
    encoding is taken to be a single-byte one), [pathlib] paths are lists of
    path components, the file system is a finite map from paths to nodes, and
    the methods of [GenericPlatform] are computations in a state-and-exception
    monad over the instance attributes, the file system and the log.

    The libraries the module calls ([hashlib], [re], [tarfile]) are
    interfaces (type classes); [Sha1] and [LiteralRe] give executable
    instances used on concrete inputs. *)

From Stdlib Require Import Strings.String Strings.Ascii Strings.Byte ZArith List Lia.
From stdpp Require Import gmap strings list.

Local Open Scope string_scope.
Local Open Scope list_scope.

(** ** Python values *)

Abbreviation bytes := (list byte).

#[global] Instance byte_eq_dec : EqDecision byte := Byte.byte_eq_dec.

(** [B "..."] stands for the Python literal [b"..."]. *)
Definition B (s : string) : bytes := list_byte_of_string s.

(** Decoding and encoding of text files. *)
Definition decode (data : bytes) : string := string_of_list_byte data.
Definition encode (text : string) : bytes := list_byte_of_string text.

(** ** [str.split(sep)] and [bytes.split(sep)] with a non-empty separator

    The scan goes left to right; where [sep] starts at the current position
    the segment read so far is emitted and [sep] is skipped ([skip] counts
    the separator's remaining items), so matches do not overlap. *)
Section Split.
Context {A : Type} `{EqDecision A}.

Fixpoint starts_with (sep s : list A) : bool :=
  match sep, s with
  | [], _ => true
  | x :: sep', y :: s' => bool_decide (x = y) && starts_with sep' s'
  | _ :: _, [] => false
  end.

Fixpoint split_from (sep s : list A) (skip : nat) (cur : list A) : list (list A) :=
  match s with
  | [] => [rev cur]
  | c :: s' =>
      match skip with
      | S k => split_from sep s' k cur
      | O =>
          if starts_with sep s
          then rev cur :: split_from sep s' (length sep - 1) []
          else split_from sep s' 0 (c :: cur)
      end
  end.

Definition split (sep s : list A) : list (list A) := split_from sep s 0 [].
End Split.

Definition str_split (sep s : string) : list string :=
  string_of_list_ascii <$> split (list_ascii_of_string sep) (list_ascii_of_string s).

(** ** [splitlines()]

    [bytes.splitlines] breaks at LF, CR and CRLF; [str.splitlines] also at
    VT, FF, FS, GS, RS and NEL.  A line break at the very end does not open
    a last empty line. *)
Section Splitlines.
Context {A : Type} (is_cr is_lf is_other_break : A -> bool).

Fixpoint splitlines_from (s : list A) (after_cr : bool) (cur : list A) : list (list A) :=
  match s with
  | [] => match cur with [] => [] | _ => [rev cur] end
  | c :: s' =>
      if is_lf c then
        if after_cr && match cur with [] => true | _ => false end
        then splitlines_from s' false []
        else rev cur :: splitlines_from s' false []
      else if is_cr c then rev cur :: splitlines_from s' true []
      else if is_other_break c then rev cur :: splitlines_from s' false []
      else splitlines_from s' false (c :: cur)
  end.
End Splitlines.

Definition bytes_splitlines (data : bytes) : list bytes :=
  splitlines_from (Byte.eqb "013"%byte) (Byte.eqb "010"%byte) (fun _ => false) data false [].

Definition str_line_break (c : ascii) : bool :=
  let n := nat_of_ascii c in
  (Nat.eqb n 11 || Nat.eqb n 12 || Nat.eqb n 28 || Nat.eqb n 29 || Nat.eqb n 30
   || Nat.eqb n 133)%bool.

Definition str_splitlines (text : string) : list string :=
  string_of_list_ascii <$>
    splitlines_from (Ascii.eqb "013"%char) (Ascii.eqb "010"%char) str_line_break
      (list_ascii_of_string text) false [].

(** Universal newlines of a file opened in text mode: CRLF and CR are read
    as LF. *)
Fixpoint universal_newlines (s : list ascii) : list ascii :=
  match s with
  | [] => []
  | c :: s' =>
      if Ascii.eqb c "013"%char then
        match s' with
        | d :: s'' =>
            if Ascii.eqb d "010"%char then "010"%char :: universal_newlines s''
            else "010"%char :: universal_newlines s'
        | [] => ["010"%char]
        end
      else c :: universal_newlines s'
  end.

Definition read_text (data : bytes) : string :=
  string_of_list_ascii (universal_newlines (list_ascii_of_string (decode data))).

(** [needle in text] *)
Fixpoint contains_from (needle text : list ascii) : bool :=
  starts_with needle text ||
  match text with
  | [] => false
  | _ :: text' => contains_from needle text'
  end.

Definition contains (needle text : string) : bool :=
  contains_from (list_ascii_of_string needle) (list_ascii_of_string text).

(** [s.lower()] on ASCII letters *)
Definition lower_char (c : ascii) : ascii :=
  let n := nat_of_ascii c in
  if Nat.leb 65 n && Nat.leb n 90 then ascii_of_nat (n + 32) else c.

Definition str_lower (s : string) : string :=
  string_of_list_ascii (lower_char <$> list_ascii_of_string s).

Definition LF : string := String "010"%char EmptyString.

(** ** [pathlib]

    A path is the list of its parts, as [PurePosixPath.parts] gives them: a
    rooted path starts with its root ([/] or [//]), and empty and [.]
    components are dropped. *)
Abbreviation path := (list string).

Definition posix_root (s : string) : string :=
  if String.prefix "///" s then "/"
  else if String.prefix "//" s then "//"
  else if String.prefix "/" s then "/"
  else "".

Definition is_component (c : string) : bool :=
  negb (String.eqb c "") && negb (String.eqb c ".").

Definition PurePosixPath (s : string) : path :=
  let components := List.filter is_component (str_split "/" s) in
  if String.eqb (posix_root s) "" then components else posix_root s :: components.

Definition is_rooted (p : path) : bool :=
  match p with
  | r :: _ => String.prefix "/" r
  | [] => false
  end.

(** [p / q] *)
Definition path_join (p q : path) : path := if is_rooted q then q else p ++ q.
Infix "//" := path_join (at level 40, left associativity).

Fixpoint join (sep : string) (l : list string) : string :=
  match l with
  | [] => ""
  | [x] => x
  | x :: l' => x +:+ sep +:+ join sep l'
  end.

(** [str(p)] *)
Definition path_str (p : path) : string :=
  match p with
  | [] => "."
  | r :: l => if is_rooted p then r +:+ join "/" l else join "/" p
  end.

(** [PurePath.relative_to]: the drive (always empty here) and the root are
    compared as parts of their own; [None] stands for [ValueError]. *)
Definition abs_parts (p : path) : path := if is_rooted p then "" :: p else p.

Definition relative_to (self other : path) : option path :=
  let abs := abs_parts self in
  let to_abs := abs_parts other in
  let n := length to_abs in
  if (if Nat.eqb n 0 then is_rooted self
      else negb (bool_decide (take n abs = to_abs)))
  then None
  else Some (drop n abs).

(** ** The file system *)
Inductive node : Type :=
  | File (content : bytes)
  | Dir.

Abbreviation filesystem := (gmap path node).

(** The working directory (the empty path) is a directory. *)
Definition is_dir (fs : filesystem) (p : path) : bool :=
  match p, fs !! p with
  | [], _ => true
  | _, Some Dir => true
  | _, _ => false
  end.

Definition is_file (fs : filesystem) (p : path) : bool :=
  match fs !! p with
  | Some (File _) => true
  | _ => false
  end.

Definition exists_ (fs : filesystem) (p : path) : bool := is_dir fs p || is_file fs p.

(** [os.makedirs(p, exist_ok=True)]: [p] and the directories above it. *)
Fixpoint prefixes (p : path) : list path :=
  match p with
  | [] => []
  | c :: p' => [c] :: ((fun q => c :: q) <$> prefixes p')
  end.

Definition mkpath (p : path) (fs : filesystem) : filesystem :=
  foldr (fun d acc => match acc !! d with Some _ => acc | None => <[d := Dir]> acc end)
        fs (prefixes p).

Definition parent (p : path) : path := removelast p.

(** ** Exceptions and log records *)
Inductive exn : Type :=
  | PyException (msg : string)
  | IndexError
  | TypeError
  | AttributeError
  | ValueError
  | FileNotFoundError (p : path)
  | IsADirectoryError (p : path)
  | NotADirectoryError (p : path)
  | DistutilsFileError (p : path)
  | ReadError
  | ReError
  | URLError.

Inductive level : Type := DEBUG | INFO | WARNING | ERROR.

Record log_record : Type := Log { lvl : level; msg : string }.

Inductive res (A : Type) : Type :=
  | Ok (a : A)
  | Raise (e : exn).
Arguments Ok {A} a.
Arguments Raise {A} e.

(** ** The libraries the module calls *)

(** [hashlib]: the registry [algorithms_available] and, for a registered
    name, [hashlib.new(name)] fed with [data] and read with [hexdigest()]. *)
Class HashLib : Type := {
  algorithms_available : string -> bool;
  hexdigest : string -> bytes -> string
}.

(** [re] on bytes: [re.compile] and [Pattern.subn]; [None] stands for
    [re.error]. *)
Class ReLib : Type := {
  regex : Type;
  re_compile : bytes -> option regex;
  re_subn : regex -> bytes -> bytes -> option (bytes * nat)
}.

(** A member of a tar archive: its name and what it extracts to. *)
Record TarInfo : Type := { name : string; member : node }.

(** [tarfile.open] on the bytes of an archive, read as the stream of its
    members; [None] stands for [tarfile.ReadError]. *)
Class TarLib : Type := {
  tarfile_open : bytes -> option (list TarInfo)
}.

(** ** Class constants of [GenericPlatform] *)
Definition COMMON_RESOURCES : path := ["resources"; "common"].
Definition CLEANING_LIST : path := ["cleaning_list"].
Definition DOMAIN_REGEX_LIST : path := ["domain_regex_list"].
Definition DOMAIN_SUBSTITUTION_LIST : path := ["domain_substitution_list"].
Definition PATCHES : path := ["patches"].
Definition PATCH_ORDER : path := ["patch_order"].

Section GenericPlatform.
Context {hashlib : HashLib} {re : ReLib} {tarfile : TarLib}.

(** A rule of the domain regex cache: [(compiled_regex, replacement)]. *)
Definition regex_pair : Type := regex * bytes.

(** The instance ([self]) together with what its methods act on.
    [PLATFORM_RESOURCES] is [None] in [GenericPlatform] and set by
    subclasses; [sandbox_patches] is an attribute [__init__] does not
    set, [None] when nothing else has set it.  [fs] is the file system,
    [remote] what a URL serves, [log] the records handed to the logger
    (oldest first) and [extracted] the calls to tarfile's
    [_extract_member], as (member name, destination), oldest first. *)
Record Platform : Type := {
  version : string;
  PLATFORM_RESOURCES : option path;
  sandbox_root : path;
  sandbox_patches : option path;
  sourcearchive : option path;
  sourcearchive_hashes : option path;
  _ran_domain_substitution : bool;
  _domain_regex_cache : option (list regex_pair);
  fs : filesystem;
  remote : gmap string bytes;
  log : list log_record;
  extracted : list (string * path)
}.

Definition set_fs (f : filesystem -> filesystem) (w : Platform) : Platform :=
  {| version := version w; PLATFORM_RESOURCES := PLATFORM_RESOURCES w;
     sandbox_root := sandbox_root w; sandbox_patches := sandbox_patches w;
     sourcearchive := sourcearchive w; sourcearchive_hashes := sourcearchive_hashes w;
     _ran_domain_substitution := _ran_domain_substitution w;
     _domain_regex_cache := _domain_regex_cache w;
     fs := f (fs w); remote := remote w; log := log w; extracted := extracted w |}.

Definition set_log (f : list log_record -> list log_record) (w : Platform) : Platform :=
  {| version := version w; PLATFORM_RESOURCES := PLATFORM_RESOURCES w;
     sandbox_root := sandbox_root w; sandbox_patches := sandbox_patches w;
     sourcearchive := sourcearchive w; sourcearchive_hashes := sourcearchive_hashes w;
     _ran_domain_substitution := _ran_domain_substitution w;
     _domain_regex_cache := _domain_regex_cache w;
     fs := fs w; remote := remote w; log := f (log w); extracted := extracted w |}.

Definition set_extracted (f : list (string * path) -> list (string * path))
    (w : Platform) : Platform :=
  {| version := version w; PLATFORM_RESOURCES := PLATFORM_RESOURCES w;
     sandbox_root := sandbox_root w; sandbox_patches := sandbox_patches w;
     sourcearchive := sourcearchive w; sourcearchive_hashes := sourcearchive_hashes w;
     _ran_domain_substitution := _ran_domain_substitution w;
     _domain_regex_cache := _domain_regex_cache w;
     fs := fs w; remote := remote w; log := log w; extracted := f (extracted w) |}.

Definition set_sourcearchive (a h : option path) (w : Platform) : Platform :=
  {| version := version w; PLATFORM_RESOURCES := PLATFORM_RESOURCES w;
     sandbox_root := sandbox_root w; sandbox_patches := sandbox_patches w;
     sourcearchive := a; sourcearchive_hashes := h;
     _ran_domain_substitution := _ran_domain_substitution w;
     _domain_regex_cache := _domain_regex_cache w;
     fs := fs w; remote := remote w; log := log w; extracted := extracted w |}.

Definition set_domain_regex_cache (c : option (list regex_pair)) (w : Platform) : Platform :=
  {| version := version w; PLATFORM_RESOURCES := PLATFORM_RESOURCES w;
     sandbox_root := sandbox_root w; sandbox_patches := sandbox_patches w;
     sourcearchive := sourcearchive w; sourcearchive_hashes := sourcearchive_hashes w;
     _ran_domain_substitution := _ran_domain_substitution w;
     _domain_regex_cache := c;
     fs := fs w; remote := remote w; log := log w; extracted := extracted w |}.

(** ** The monad of the methods: state, and Python exceptions

    An exception keeps the state reached when it was raised. *)
Definition M (A : Type) : Type := Platform -> res A * Platform.

Definition ret {A} (a : A) : M A := fun w => (Ok a, w).
Definition raise {A} (e : exn) : M A := fun w => (Raise e, w).
Definition bind {A C} (m : M A) (k : A -> M C) : M C :=
  fun w => match m w with
           | (Ok a, w') => k a w'
           | (Raise e, w') => (Raise e, w')
           end.
Definition get : M Platform := fun w => (Ok w, w).
Definition modify (f : Platform -> Platform) : M unit := fun w => (Ok tt, f w).

(** [try: m  except Exception as e: h; raise e] *)
Definition try_reraise {A} (m : M A) (h : M unit) : M A :=
  fun w => match m w with
           | (Ok a, w') => (Ok a, w')
           | (Raise e, w') => (Raise e, snd (h w'))
           end.

Notation "'let*' x ':=' m 'in' k" := (bind m (fun x => k))
  (at level 10, x pattern, m at level 100, k at level 200).
Notation "m ';;' k" := (bind m (fun _ => k))
  (at level 100, k at level 200, right associativity).

(** ** The logger and the file operations *)
Definition logger (l : level) (m : string) : M unit :=
  modify (set_log (fun lg => lg ++ [Log l m])).

(** [p.open("rb").read()] *)
Definition read_bytes (p : path) : M bytes :=
  let* w := get in
  match fs w !! p with
  | Some (File c) => ret c
  | Some Dir => raise (IsADirectoryError p)
  | None => if is_dir (fs w) p then raise (IsADirectoryError p)
            else raise (FileNotFoundError p)
  end.

(** [p.open("r").read()] *)
Definition read_str (p : path) : M string :=
  let* c := read_bytes p in ret (read_text c).

(** [p.open("wb").write(data)]: the directory of [p] has to exist. *)
Definition write_bytes (p : path) (data : bytes) : M unit :=
  let* w := get in
  if is_dir (fs w) p then raise (IsADirectoryError p)
  else if is_dir (fs w) (parent p) then modify (set_fs (insert p (File data)))
  else raise (FileNotFoundError p).

(** [p.unlink()] *)
Definition unlink (p : path) : M unit :=
  let* w := get in
  if is_dir (fs w) p then raise (IsADirectoryError p)
  else if is_file (fs w) p then modify (set_fs (delete p))
  else raise (FileNotFoundError p).

(** [l[i]] *)
Definition item {A} (l : list A) (i : nat) : M A :=
  match nth_error l i with
  | Some x => ret x
  | None => raise IndexError
  end.

(** [l.remove(x)]: the first occurrence goes. *)
Fixpoint list_remove (x : string) (l : list string) : list string :=
  match l with
  | [] => []
  | y :: l' => if String.eqb x y then l' else y :: list_remove x l'
  end.

(** ** [_read_list_resource] (lines 92-106)

    [read_lines] is [f.read().splitlines()] in the chosen file mode. *)
Definition read_list_resource_in {L : Type} (read_lines : path -> M (list L))
    (len : L -> nat) (file_name : path) : M (list L) :=
  let common_path := COMMON_RESOURCES // file_name in
  let* tmp_list := read_lines common_path in
  let* w := get in
  let* tmp_list :=
    match PLATFORM_RESOURCES w with
    | Some platform_resources =>
        let platform_path := platform_resources // file_name in
        if exists_ (fs w) platform_path then
          let* more := read_lines platform_path in
          logger DEBUG "Successfully appended platform list";;
          ret (tmp_list ++ more)
        else ret tmp_list
    | None => ret tmp_list
    end in
  ret (List.filter (fun x => Nat.ltb 0 (len x)) tmp_list).

Definition line (is_binary : bool) : Type := if is_binary then bytes else string.

Definition _read_list_resource (file_name : path) (is_binary : bool)
    : M (list (line is_binary)) :=
  match is_binary as m return M (list (line m)) with
  | true =>
      read_list_resource_in
        (fun p => let* c := read_bytes p in ret (bytes_splitlines c))
        (@length byte) file_name
  | false =>
      read_list_resource_in
        (fun p => let* c := read_str p in ret (str_splitlines c))
        String.length file_name
  end.

(** ** [_check_source_archive] (lines 108-126)

    The method returns [None] on every path that returns: after the last
    line, and from inside the loop at the first hash that does not
    match. *)
Fixpoint check_hash_lines (hash_lines : list string) : M unit :=
  match hash_lines with
  | [] => ret tt
  | hash_line :: rest =>
      let hash_line := str_split "  " hash_line in
      let* algorithm := item hash_line 0 in
      if algorithms_available algorithm then
        logger INFO ("Running '" +:+ algorithm +:+ "' hash check...");;
        let* w := get in
        let* data :=
          match sourcearchive w with
          | Some archive => read_bytes archive
          | None => raise AttributeError
          end in
        let digest := hexdigest algorithm data in
        let* hashhex := item hash_line 1 in
        if String.eqb digest hashhex then
          logger DEBUG ("'" +:+ algorithm +:+ "' hash matches");;
          check_hash_lines rest
        else
          logger ERROR ("Archive does not have matching '" +:+ algorithm
                        +:+ "' hash '" +:+ hashhex +:+ "'");;
          ret tt
      else
        logger WARNING ("Hash algorithm '" +:+ algorithm
                        +:+ "' not available. Skipping...");;
        check_hash_lines rest
  end.

(** A manifest line that lets the check go on: its algorithm is not in
    the registry, or its second field is the digest of [data]. *)
Definition verifies (data : bytes) (hash_line : string) : bool :=
  match str_split "  " hash_line with
  | algorithm :: fields =>
      if algorithms_available algorithm then
        match fields with
        | hashhex :: _ => String.eqb (hexdigest algorithm data) hashhex
        | [] => false
        end
      else true
  | [] => false
  end.

Definition no_error (lg : list log_record) : Prop :=
  Forall (fun r => lvl r <> ERROR) lg.

Definition _check_source_archive : M unit :=
  let* w := get in
  match sourcearchive_hashes w with
  | None => raise AttributeError
  | Some hashes =>
      let* text := read_str hashes in
      check_hash_lines (str_split LF text)
  end.

(** ** [_download_source_archive], [_download_source_hashes] (lines 128-141) *)
Definition download (url : string) (target : option path) : M unit :=
  let* w := get in
  match remote w !! url with
  | None => raise URLError
  | Some response =>
      match target with
      | Some p => write_bytes p response
      | None => raise AttributeError
      end
  end.

Definition archive_url (v : string) : string :=
  "https://commondatastorage.googleapis.com/chromium-browser-official/chromium-"
  +:+ v +:+ ".tar.xz".

Definition _download_source_archive : M unit :=
  let* w := get in download (archive_url (version w)) (sourcearchive w).

Definition _download_source_hashes : M unit :=
  let* w := get in download (archive_url (version w) +:+ ".hashes") (sourcearchive_hashes w).

(** ** [_extract_source_archive] (lines 143-164) *)

(** tarfile's [_extract_member(tarinfo, targetpath)]: the directories
    above the target are made, then the member itself. *)
Definition _extract_member (tarinfo : TarInfo) (targetpath : path) : M unit :=
  modify (set_extracted (fun l => l ++ [(name tarinfo, targetpath)]));;
  let* w := get in
  let upperdirs := parent targetpath in
  match List.find (is_file (fs w)) (prefixes upperdirs) with
  | Some d => raise (NotADirectoryError d)
  | None =>
      modify (set_fs (mkpath upperdirs));;
      match member tarinfo with
      | File c =>
          if is_dir (fs w) targetpath then raise (IsADirectoryError targetpath)
          else modify (set_fs (insert targetpath (File c)))
      | Dir =>
          if exists_ (fs w) targetpath then ret tt
          else modify (set_fs (insert targetpath Dir))
      end
  end.

(** The loop over the members.  [cleaning_list] is the caller's list
    object, which the loop changes in place: the list returned is that
    object's content when the loop ends. *)
Fixpoint extract_members (members : list TarInfo) (cleaning_list : list string)
    : M (list string) :=
  match members with
  | [] => ret cleaning_list
  | tarinfo :: rest =>
      let* cleaning_list :=
        try_reraise
          (let* w := get in
           match relative_to (PurePosixPath (name tarinfo))
                   (PurePosixPath ("chromium-" +:+ version w)) with
           | None => raise ValueError
           | Some relative_path =>
               if bool_decide (path_str relative_path ∈ cleaning_list) then
                 ret (list_remove (path_str relative_path) cleaning_list)
               else
                 let destination := sandbox_root w // relative_path in
                 _extract_member tarinfo destination;;
                 ret cleaning_list
           end)
          (logger ERROR ("Exception thrown for tar member " +:+ name tarinfo)) in
      extract_members rest cleaning_list
  end.

Definition _extract_source_archive (cleaning_list : list string) : M (list string) :=
  let* w := get in
  let archive :=
    match sourcearchive w with
    | Some p => p
    | None => PurePosixPath "None"
    end in
  let* data := read_bytes archive in
  match tarfile_open data with
  | None => raise ReadError
  | Some members => extract_members members cleaning_list
  end.

(** The relative path of a member, [None] when it is not under
    [chromium-<version>]. *)
Definition relative_path (v : string) (tarinfo : TarInfo) : option path :=
  relative_to (PurePosixPath (name tarinfo)) (PurePosixPath ("chromium-" +:+ v)).

(** The relative paths of the entries of an archive, as the denylist
    writes them. *)
Definition archive_paths (v : string) (members : list TarInfo) : list string :=
  omap (fun tarinfo => path_str <$> relative_path v tarinfo) members.

(** The relative paths materialized under the sandbox root between two
    states: the destinations handed to [_extract_member] in between, taken
    relative to the sandbox root. *)
Definition materialized (w w' : Platform) : list string :=
  omap (fun call => path_str <$> relative_to (snd call) (sandbox_root w))
       (drop (length (extracted w)) (extracted w')).

(** A denylist entry was matched: the list holds it fewer times after
    the extraction than before. *)
Definition matched (denylist remaining : list string) (x : string) : Prop :=
  count_occ string_dec remaining x < count_occ string_dec denylist x.

(** The two lists the loop leaves, from the relative paths in archive
    order: the paths extracted and the denylist entries still pending. *)
Fixpoint consume (paths denylist : list string) : list string * list string :=
  match paths with
  | [] => ([], denylist)
  | r :: paths' =>
      if bool_decide (r ∈ denylist) then consume paths' (list_remove r denylist)
      else let '(kept, pending) := consume paths' denylist in (r :: kept, pending)
  end.

(** ** [_get_parsed_domain_regexes] (lines 166-172)

    The cache is set to the empty list before the resource is read, and
    each rule is appended to it as soon as it is parsed. *)
Definition cache_append (pair : regex_pair) (w : Platform) : Platform :=
  set_domain_regex_cache
    (Some (match _domain_regex_cache w with
           | Some c => c ++ [pair]
           | None => [pair]
           end)) w.

Fixpoint parse_expressions (expressions : list bytes) : M unit :=
  match expressions with
  | [] => ret tt
  | expression :: rest =>
      let expression := split (B "#") expression in
      let* pattern := item expression 0 in
      match re_compile pattern with
      | None => raise ReError
      | Some compiled =>
          let* replacement := item expression 1 in
          modify (cache_append (compiled, replacement));;
          parse_expressions rest
      end
  end.

Definition _get_parsed_domain_regexes : M (list regex_pair) :=
  let* w := get in
  match _domain_regex_cache w with
  | None =>
      modify (set_domain_regex_cache (Some []));;
      let* expressions := _read_list_resource DOMAIN_REGEX_LIST true in
      parse_expressions expressions
  | Some _ => ret tt
  end;;
  let* w := get in
  ret (default [] (_domain_regex_cache w)).

(** The bytes of [s] before its first [#] (all of [s] when it has none). *)
Fixpoint before_hash (s : bytes) : bytes :=
  match s with
  | [] => []
  | c :: s' => if bool_decide (c = "#"%byte) then [] else c :: before_hash s'
  end.

(** What a line with a [#] is parsed to: the pattern is what stands
    before the first [#], the replacement what stands between the first
    [#] and the second. *)
Definition parses_to (expression : bytes) (rule : regex_pair) : Prop :=
  exists pattern rest compiled,
    expression = pattern ++ "#"%byte :: rest
    /\ ("#"%byte ∉ pattern)
    /\ re_compile pattern = Some compiled
    /\ rule = (compiled, before_hash rest).

(** ** [_domain_substitute] (lines 174-195) *)

(** The loop over [regex_list] for one file: [content] and [file_subs]
    are the loop's two variables. *)
Fixpoint substitute_content (regex_list : list regex_pair) (content : bytes)
    (file_subs : nat) : M (bytes * nat) :=
  match regex_list with
  | [] => ret (content, file_subs)
  | (compiled_regex, replacement_regex) :: rest =>
      match re_subn compiled_regex replacement_regex content with
      | None => raise ReError
      | Some (content, number_of_subs) =>
          substitute_content rest content (file_subs + number_of_subs)
      end
  end.

Fixpoint _domain_substitute (regex_list : list regex_pair) (file_list : list path)
    (log_warnings : bool) : M unit :=
  match file_list with
  | [] => ret tt
  | path :: rest =>
      try_reraise
        (let* content := read_bytes path in
         let* (content, file_subs) := substitute_content regex_list content 0 in
         if Nat.ltb 0 file_subs then modify (set_fs (insert path (File content)))
         else if log_warnings then
           logger WARNING ("File " +:+ path_str path +:+ " has no matches")
         else ret tt)
        (logger ERROR ("Exception thrown for path " +:+ path_str path));;
      _domain_substitute regex_list rest log_warnings
  end.

(** The rules applied one after the other, each to what the one before
    it gives, and their counts added up; [None] when a rule raises. *)
Fixpoint chain (regex_list : list regex_pair) (content : bytes) : option (bytes * nat) :=
  match regex_list with
  | [] => Some (content, 0)
  | (compiled_regex, replacement_regex) :: rest =>
      match re_subn compiled_regex replacement_regex content with
      | None => None
      | Some (content1, n1) =>
          match chain rest content1 with
          | None => None
          | Some (content2, n2) => Some (content2, n1 + n2)
          end
      end
  end.

Definition no_match_warning (p : path) : log_record :=
  Log WARNING ("File " +:+ path_str p +:+ " has no matches").

(** ** [_generate_patches] (lines 197-216) *)

(** [p] lies below the directory [d]. *)
Definition below (d p : path) : bool :=
  bool_decide (d `prefix_of` p) && negb (bool_decide (p = d)).

(** [distutils.dir_util.copy_tree(src, dst)]: [dst] is made, and every
    file and directory below [src] is copied to the same place below
    [dst], over what is there. *)
Definition copy_tree (src dst : path) : M unit :=
  let* w := get in
  if is_dir (fs w) src then
    modify (set_fs (fun old =>
      map_fold (fun p n acc =>
                  if below src p then <[dst ++ drop (length src) p := n]> acc else acc)
               (mkpath dst old) old))
  else raise (DistutilsFileError src).

Definition ends_with (suffix s : string) : bool :=
  String.prefix (String.rev suffix) (String.rev s).

(** [d.rglob("*.patch")], read at once. *)
Definition rglob_patch (d : path) (files : filesystem) : list path :=
  List.filter (fun p => below d p && ends_with ".patch" (List.last p ""))
              (fst <$> map_to_list files).

Definition _generate_patches (output_dir : path) (run_domain_substitution : bool)
    : M unit :=
  let* w := get in
  let* platform_patch_order :=
    match PLATFORM_RESOURCES w with
    | Some platform_resources => ret (platform_resources // PATCHES // PATCH_ORDER)
    | None => raise TypeError
    end in
  let platform_patches_exist :=
    match PLATFORM_RESOURCES w with
    | Some _ => exists_ (fs w) platform_patch_order
    | None => false
    end in
  let* new_patch_order := read_str (COMMON_RESOURCES // PATCHES // PATCH_ORDER) in
  let* new_patch_order :=
    if platform_patches_exist then
      logger DEBUG "Using platform patches";;
      let* more := read_str platform_patch_order in
      ret (new_patch_order +:+ more)
    else ret new_patch_order in
  copy_tree (COMMON_RESOURCES // PATCHES) output_dir;;
  unlink (output_dir // PATCH_ORDER);;
  let* platform_patches :=
    match PLATFORM_RESOURCES w with
    | Some platform_resources => ret (platform_resources // PATCHES)
    | None => raise TypeError
    end in
  copy_tree platform_patches output_dir;;
  unlink (output_dir // PATCH_ORDER);;
  write_bytes (output_dir // PATCH_ORDER) (encode new_patch_order);;
  if run_domain_substitution then
    logger DEBUG "Running domain substitution over patches...";;
    let* regex_list := _get_parsed_domain_regexes in
    let* w := get in
    match sandbox_patches w with
    | None => raise AttributeError
    | Some patches => _domain_substitute regex_list (rglob_patch patches (fs w)) false
    end
  else ret tt.

(** ** [setup_chromium_source] (lines 289-346), in its three parts *)

(** Lines 302-332: where the archive and its hashes are, downloading
    them when asked to. *)
Definition setup_locate (check_if_exists force_download check_integrity : bool)
    (destination_dir : path) (archive_path hashes_path : option path) : M unit :=
  match archive_path with
  | None =>
      if check_if_exists && force_download then
        raise (PyException "Conflicting arguments: check_if_exists and force_download")
      else
        let* w := get in
        let archive :=
          destination_dir // PurePosixPath ("chromium-" +:+ version w +:+ ".tar.xz") in
        let hashes :=
          destination_dir
          // PurePosixPath ("chromium-" +:+ version w +:+ ".tar.xz.hashes") in
        modify (set_sourcearchive (Some archive) (Some hashes));;
        (if exists_ (fs w) archive && negb (is_file (fs w) archive) then
           raise (PyException "sourcearchive is an existing non-file")
         else if force_download || check_if_exists && negb (is_file (fs w) archive) then
           logger INFO "Downloading source archive...";;
           _download_source_archive
         else logger INFO "Source archive already exists. Skipping download.");;
        if check_integrity then
          let* w := get in
          if exists_ (fs w) hashes && negb (is_file (fs w) hashes) then
            raise (PyException "sourcearchive_hashes is an existing non-file")
          else if force_download || check_if_exists && negb (is_file (fs w) hashes) then
            logger INFO "Downloading source archive hashes...";;
            _download_source_hashes
          else logger INFO "Source hashes file already exists. Skipping download."
        else ret tt
  | Some archive =>
      if check_integrity && match hashes_path with None => true | Some _ => false end then
        raise (PyException "Hashes path must be set with archive_path")
      else if force_download then
        raise (PyException
                 "Conflicting arguments: force_download with archive_path and hashes_path")
      else modify (set_sourcearchive (Some archive) hashes_path)
  end.

(** Lines 334-336: the value [_check_source_archive] returns is not
    looked at. *)
Definition setup_check (check_integrity : bool) : M unit :=
  if check_integrity then
    logger INFO "Checking source archive integrity...";;
    _check_source_archive
  else ret tt.

(** Lines 338-346 *)
Definition warn_missing (l : list string) : M unit :=
  modify (set_log (fun lg =>
    lg ++ ((fun i => Log WARNING ("File does not exist in tar file: " +:+ i)) <$> l))).

Definition setup_extract (extract_archive use_cleaning_list : bool) : M unit :=
  if extract_archive then
    logger INFO "Extracting source archive into building sandbox...";;
    if use_cleaning_list then
      let* list_obj := _read_list_resource CLEANING_LIST false in
      let* list_obj := _extract_source_archive list_obj in
      warn_missing list_obj
    else
      let* _ := _extract_source_archive [] in ret tt
  else ret tt.

Definition setup_chromium_source
    (check_if_exists force_download check_integrity extract_archive : bool)
    (destination_dir : path) (use_cleaning_list : bool)
    (archive_path hashes_path : option path) : M unit :=
  setup_locate check_if_exists force_download check_integrity destination_dir
               archive_path hashes_path;;
  setup_check check_integrity;;
  setup_extract extract_archive use_cleaning_list.
End GenericPlatform.

(** ** SHA-1 (FIPS 180-4), the [sha1] of [hashlib] *)
Module Sha1.
Local Open Scope Z_scope.

Definition mask32 (x : Z) : Z := Z.land x 4294967295.
Definition add32 (x y : Z) : Z := mask32 (x + y).
Definition rotl (n x : Z) : Z := mask32 (Z.lor (Z.shiftl x n) (Z.shiftr x (32 - n))).
Definition not32 (x : Z) : Z := Z.lxor x 4294967295.

(** [n] bytes of [x], most significant first *)
Fixpoint big_endian (n : nat) (x : Z) : list Z :=
  match n with
  | O => []
  | S k => Z.land (Z.shiftr x (8 * Z.of_nat k)) 255 :: big_endian k x
  end.

Definition pad (message : list Z) : list Z :=
  let len := Z.of_nat (length message) in
  message ++ [128] ++ repeat 0 (Z.to_nat ((55 - len) mod 64)) ++ big_endian 8 (8 * len).

Fixpoint words (fuel : nat) (l : list Z) : list Z :=
  match fuel, l with
  | S k, b0 :: b1 :: b2 :: b3 :: l' =>
      (Z.shiftl b0 24 + Z.shiftl b1 16 + Z.shiftl b2 8 + b3) :: words k l'
  | _, _ => []
  end.

(** The message schedule, latest word first. *)
Fixpoint schedule (n : nat) (w : list Z) : list Z :=
  match n with
  | O => w
  | S k =>
      let x := Z.lxor (Z.lxor (nth 2 w 0) (nth 7 w 0)) (Z.lxor (nth 13 w 0) (nth 15 w 0)) in
      schedule k (rotl 1 x :: w)
  end.

Definition f (t : nat) (x y z : Z) : Z :=
  if (t <? 20)%nat then Z.lor (Z.land x y) (Z.land (not32 x) z)
  else if (t <? 40)%nat then Z.lxor (Z.lxor x y) z
  else if (t <? 60)%nat then Z.lor (Z.lor (Z.land x y) (Z.land x z)) (Z.land y z)
  else Z.lxor (Z.lxor x y) z.

Definition K (t : nat) : Z :=
  if (t <? 20)%nat then 1518500249
  else if (t <? 40)%nat then 1859775393
  else if (t <? 60)%nat then 2400959708
  else 3395469782.

Definition state : Type := Z * Z * Z * Z * Z.

Fixpoint rounds (t : nat) (w : list Z) (s : state) : state :=
  match w with
  | [] => s
  | wt :: w' =>
      let '(a, b0, c, d, e) := s in
      let temp := add32 (add32 (add32 (add32 (rotl 5 a) (f t b0 c d)) e) (K t)) wt in
      rounds (S t) w' (temp, a, rotl 30 b0, c, d)
  end.

Definition block (h : state) (w16 : list Z) : state :=
  let '(h0, h1, h2, h3, h4) := h in
  let '(a, b0, c, d, e) := rounds 0 (rev (schedule 64 (rev w16))) h in
  (add32 h0 a, add32 h1 b0, add32 h2 c, add32 h3 d, add32 h4 e).

Fixpoint blocks (fuel : nat) (ws : list Z) (h : state) : state :=
  match fuel, ws with
  | S k, _ :: _ => blocks k (drop 16 ws) (block h (take 16 ws))
  | _, _ => h
  end.

Definition hex_digit (x : Z) : ascii :=
  nth (Z.to_nat x) (list_ascii_of_string "0123456789abcdef") "0"%char.

Fixpoint hex (n : nat) (x : Z) : list ascii :=
  match n with
  | O => []
  | S k => hex_digit (Z.land (Z.shiftr x (4 * Z.of_nat k)) 15) :: hex k x
  end.

Definition sha1 (data : bytes) : state :=
  let message := pad ((fun x => Z.of_N (Byte.to_N x)) <$> data) in
  let ws := words (length message) message in
  blocks (length ws) ws (1732584193, 4023233417, 2562383102, 271733878, 3285377520).

Definition hexdigest (data : bytes) : string :=
  let '(h0, h1, h2, h3, h4) := sha1 data in
  string_of_list_ascii (hex 8 h0 ++ hex 8 h1 ++ hex 8 h2 ++ hex 8 h3 ++ hex 8 h4).
End Sha1.

(** A [hashlib] whose registry holds [sha1]. *)
Definition hashlib_sha1 : HashLib :=
  {| algorithms_available := fun a => String.eqb a "sha1";
     hexdigest := fun a data => if String.eqb a "sha1" then Sha1.hexdigest data else "" |}.

(** ** The literal fragment of [re]

    Patterns without metacharacters and replacement templates without
    backslash: the pattern matches its own bytes, scanning left to right
    without overlap, and every match is replaced by the template as it is.
    The empty pattern matches before every byte and at the end.  Other
    patterns and templates are outside the fragment and are refused. *)
Module LiteralRe.
Definition metacharacters : bytes := B ".^$*+?{}[]\|()".

Definition is_literal (p : bytes) : bool :=
  forallb (fun c => negb (bool_decide (c ∈ metacharacters))) p.

Definition compile (p : bytes) : option bytes :=
  if is_literal p then Some p else None.

Fixpoint subn_from (p repl s : bytes) (skip : nat) : bytes * nat :=
  match s with
  | [] => ([], 0)
  | c :: s' =>
      match skip with
      | S k => subn_from p repl s' k
      | O =>
          if starts_with p s then
            let '(out, n) := subn_from p repl s' (length p - 1) in (repl ++ out, S n)
          else
            let '(out, n) := subn_from p repl s' 0 in (c :: out, n)
      end
  end.

Definition subn (p repl s : bytes) : option (bytes * nat) :=
  if bool_decide ("\"%byte ∈ repl) then None
  else
    match p with
    | [] => Some (repl ++ concat ((fun c => c :: repl) <$> s), S (length s))
    | _ :: _ => Some (subn_from p repl s 0)
    end.
End LiteralRe.

Definition re_literal : ReLib :=
  {| regex := bytes; re_compile := LiteralRe.compile; re_subn := LiteralRe.subn |}.

(** A [tarfile] that knows the archives of a table. *)
Definition tarfile_of (table : list (bytes * list TarInfo)) : TarLib :=
  {| tarfile_open := fun data =>
       snd <$> List.find (fun e => bool_decide (fst e = data)) table |}.

(** The number of lines of a text file. *)
Definition line_count (data : bytes) : nat := length (str_splitlines (read_text data)).

(** ** Inputs used on the concrete runs *)
Module Inputs.
(** Text with real line feeds. *)
Definition lines (l : list string) : bytes := encode (join LF l +:+ LF).

Definition archive_bytes : bytes := B "abc".

Definition members : list TarInfo :=
  [ {| name := "chromium-1/a/b.txt"; member := File (B "denied") |};
    {| name := "chromium-1/e/f.txt"; member := File (B "kept") |} ].

(** An archive that holds the same entry twice. *)
Definition twice_bytes : bytes := B "abcabc".

Definition twice_members : list TarInfo :=
  [ {| name := "chromium-1/a/b.txt"; member := File (B "denied") |};
    {| name := "chromium-1/a/b.txt"; member := File (B "denied again") |} ].

Definition tarfile_example : TarLib :=
  tarfile_of [(archive_bytes, members); (twice_bytes, twice_members)].

Definition files (archive manifest : bytes) (cleaning_list : list string) : filesystem :=
  list_to_map
    [ (["resources"], Dir);
      (["resources"; "common"], Dir);
      (["resources"; "common"; "cleaning_list"], File (lines cleaning_list));
      (["build_sandbox"], Dir);
      (["chromium-1.tar.xz"], File archive);
      (["chromium-1.tar.xz.hashes"], File manifest) ].

Definition platform_of (archive manifest : bytes) (cleaning_list : list string)
    : @Platform re_literal :=
  {| version := "1"; PLATFORM_RESOURCES := None;
     sandbox_root := ["build_sandbox"]; sandbox_patches := None;
     sourcearchive := Some ["chromium-1.tar.xz"];
     sourcearchive_hashes := Some ["chromium-1.tar.xz.hashes"];
     _ran_domain_substitution := false; _domain_regex_cache := None;
     fs := files archive manifest cleaning_list; remote := ∅; log := [];
     extracted := [] |}.

Definition platform (manifest : bytes) : @Platform re_literal :=
  platform_of archive_bytes manifest ["a/b.txt"; "c/d.txt"].

(** A resource tree with a domain regex list, and two files of the
    sandbox. *)
Definition regex_files (regex_list : list string) : filesystem :=
  list_to_map
    [ (["resources"], Dir);
      (["resources"; "common"], Dir);
      (["resources"; "common"; "domain_regex_list"], File (lines regex_list));
      (["build_sandbox"], Dir);
      (["build_sandbox"; "one.cc"], File (B "visit foo now"));
      (["build_sandbox"; "two.cc"], File (B "nothing here"));
      (["build_sandbox"; "three.cc"], File (B "abb")) ].

Definition regex_platform (regex_list : list string) : @Platform re_literal :=
  {| version := "1"; PLATFORM_RESOURCES := None;
     sandbox_root := ["build_sandbox"]; sandbox_patches := None;
     sourcearchive := None; sourcearchive_hashes := None;
     _ran_domain_substitution := false; _domain_regex_cache := None;
     fs := regex_files regex_list; remote := ∅; log := []; extracted := [] |}.

Definition good_manifest : bytes :=
  lines ["sha1  a9993e364706816aba3e25717850c26c9cd0d89d"].
Definition bad_manifest : bytes :=
  lines ["sha1  0000000000000000000000000000000000000000"].
Definition upper_manifest : bytes :=
  lines ["sha1  A9993E364706816ABA3E25717850C26C9CD0D89D"].

Definition one : path := ["build_sandbox"; "one.cc"].
Definition two : path := ["build_sandbox"; "two.cc"].
Definition three : path := ["build_sandbox"; "three.cc"].
Definition foo_bar : list (@regex_pair re_literal) := [(B "foo", B "bar")].
Definition ab_a : list (@regex_pair re_literal) := [(B "ab", B "a")].

(** Resource trees with patches: the common patches, and a platform
    directory whose patches come with or without a patch order. *)
Definition common_patches (common_order : bytes) : list (path * node) :=
  [ (["resources"], Dir);
    (["resources"; "common"], Dir);
    (["resources"; "common"; "domain_regex_list"], File (lines ["foo#bar"]));
    (["resources"; "common"; "patches"], Dir);
    (["resources"; "common"; "patches"; "patch_order"], File common_order);
    (["resources"; "common"; "patches"; "a.patch"], File (B "visit foo"));
    (["resources"; "common"; "patches"; "plain.patch"], File (B "nothing"));
    (["build_sandbox"], Dir);
    (["build_sandbox"; ".ungoogled"], Dir);
    (["build_sandbox"; ".ungoogled"; "patches"], Dir);
    (["build_sandbox"; ".ungoogled"; "patches"; "old.patch"], File (B "foo old")) ].

Definition platform_patches (platform_order : option bytes) : list (path * node) :=
  [ (["resources"; "linux"], Dir);
    (["resources"; "linux"; "patches"], Dir);
    (["resources"; "linux"; "patches"; "b.patch"], File (B "foo too")) ]
  ++ match platform_order with
     | Some order => [(["resources"; "linux"; "patches"; "patch_order"], File order)]
     | None => []
     end.

Definition patch_platform (platform_resources : option path) (files : list (path * node))
    (patches : option path) : @Platform re_literal :=
  {| version := "1"; PLATFORM_RESOURCES := platform_resources;
     sandbox_root := ["build_sandbox"]; sandbox_patches := patches;
     sourcearchive := None; sourcearchive_hashes := None;
     _ran_domain_substitution := false; _domain_regex_cache := None;
     fs := list_to_map files; remote := ∅; log := []; extracted := [] |}.

Definition linux : option path := Some ["resources"; "linux"].
Definition out : path := ["out"].
Definition ungoogled_patches : path := ["build_sandbox"; ".ungoogled"; "patches"].
End Inputs.

(** ** The rest of [GenericPlatform]: [__init__] and [setup_build_sandbox] *)
Definition SANDBOX_ROOT : path := ["build_sandbox"].
Definition UNGOOGLED_DIR : path := [".ungoogled"].

Section BuildSandbox.
Context {hashlib : HashLib} {re : ReLib} {tarfile : TarLib}.

Notation "'let*' x ':=' m 'in' k" := (bind m (fun x => k))
  (at level 10, x pattern, m at level 100, k at level 200).
Notation "m ';;' k" := (bind m (fun _ => k))
  (at level 100, k at level 200, right associativity).

Definition set_version_root (v : string) (root : path) (w : Platform) : Platform :=
  {| version := v; PLATFORM_RESOURCES := PLATFORM_RESOURCES w;
     sandbox_root := root; sandbox_patches := sandbox_patches w;
     sourcearchive := sourcearchive w; sourcearchive_hashes := sourcearchive_hashes w;
     _ran_domain_substitution := _ran_domain_substitution w;
     _domain_regex_cache := _domain_regex_cache w;
     fs := fs w; remote := remote w; log := log w; extracted := extracted w |}.

Definition set_ran_domain_substitution (flag : bool) (w : Platform) : Platform :=
  {| version := version w; PLATFORM_RESOURCES := PLATFORM_RESOURCES w;
     sandbox_root := sandbox_root w; sandbox_patches := sandbox_patches w;
     sourcearchive := sourcearchive w; sourcearchive_hashes := sourcearchive_hashes w;
     _ran_domain_substitution := flag;
     _domain_regex_cache := _domain_regex_cache w;
     fs := fs w; remote := remote w; log := log w; extracted := extracted w |}.

(** [p.mkdir()]: the directory above has to be there, and [p] must not
    exist ([FileExistsError], which [__init__] cannot meet: it calls
    [mkdir] on paths that do not exist). *)
Definition mkdir (p : path) : M unit :=
  let* w := get in
  if exists_ (fs w) p then raise (PyException "FileExistsError")
  else if is_dir (fs w) (parent p) then modify (set_fs (insert p Dir))
  else if exists_ (fs w) (parent p) then raise (NotADirectoryError p)
  else raise (FileNotFoundError p).

(** [__init__] (lines 47-90), on an instance whose class attributes
    ([PLATFORM_RESOURCES]) are in place.  [revision], [gn_command],
    [ninja_command] and [build_output] are attributes no method embedded
    here reads; the state has no field for them.  The logger is the log of
    the state. *)
Definition __init__ (v revision : string) (root : option path) : M unit :=
  let* w := get in
  let root := match root with Some r => r | None => SANDBOX_ROOT end in
  modify (set_version_root v root);;
  (if exists_ (fs w) root then
     if negb (is_dir (fs w) root) then
       raise (PyException "sandbox_root exists, but is not a directory")
     else ret tt
   else
     logger INFO "Sandbox root does not exist. Creating...";;
     mkdir root);;
  let ungoogled_dir := root // UNGOOGLED_DIR in
  let* w := get in
  (if exists_ (fs w) ungoogled_dir then
     if negb (is_dir (fs w) ungoogled_dir) then
       raise (PyException "ungoogled_dir exists, but is not a directory")
     else ret tt
   else
     logger INFO "ungoogled_dir does not exist. Creating...";;
     mkdir ungoogled_dir);;
  modify (set_sourcearchive None None);;
  modify (set_ran_domain_substitution false);;
  modify (set_domain_regex_cache None).

(** [setup_build_sandbox] (lines 348-358).  The file list is a generator:
    the list resource is read when [_domain_substitute] asks for the first
    path, after the regexes have been parsed. *)
Definition setup_build_sandbox (run_domain_substitution : bool) : M unit :=
  if run_domain_substitution then
    logger INFO "Running domain substitution over build sandbox...";;
    let* regex_list := _get_parsed_domain_regexes in
    let* lines := _read_list_resource DOMAIN_SUBSTITUTION_LIST false in
    let* w := get in
    _domain_substitute regex_list
      ((fun x => sandbox_root w // PurePosixPath x) <$> lines) true;;
    modify (set_ran_domain_substitution true)
  else ret tt.

(** The algorithm a manifest line names: its first field. *)
Definition algorithm_of (hash_line : string) : string :=
  hd "" (str_split "  " hash_line).

Definition skip_warning (hash_line : string) : log_record :=
  Log WARNING ("Hash algorithm '" +:+ algorithm_of hash_line
               +:+ "' not available. Skipping...").

(** What the check logs for a manifest line that lets it go on: the two
    records of a hash that matches, or the warning of an algorithm that is
    not in the registry. *)
Definition line_records (hash_line : string) : list log_record :=
  if algorithms_available (algorithm_of hash_line) then
    [Log INFO ("Running '" +:+ algorithm_of hash_line +:+ "' hash check...");
     Log DEBUG ("'" +:+ algorithm_of hash_line +:+ "' hash matches")]
  else [skip_warning hash_line].

(** Where [setup_chromium_source] looks for the archive and its hashes
    when no [archive_path] is given. *)
Definition archive_of (w : Platform) (destination_dir : path) : path :=
  destination_dir // PurePosixPath ("chromium-" +:+ version w +:+ ".tar.xz").

Definition hashes_of (w : Platform) (destination_dir : path) : path :=
  destination_dir // PurePosixPath ("chromium-" +:+ version w +:+ ".tar.xz.hashes").

(** Two states that differ in their log at most. *)
Definition same_but_log (w w' : Platform) : Prop :=
  w' = set_log (fun _ => log w') w.
End BuildSandbox.

(** ** More inputs for the concrete runs *)
Module MoreInputs.
Import Inputs.

(** A platform with a cleaning list of its own. *)
Definition overlay_platform : @Platform re_literal :=
  {| version := "1"; PLATFORM_RESOURCES := linux;
     sandbox_root := ["build_sandbox"]; sandbox_patches := None;
     sourcearchive := None; sourcearchive_hashes := None;
     _ran_domain_substitution := false; _domain_regex_cache := None;
     fs := list_to_map
             [ (["resources"], Dir);
               (["resources"; "common"], Dir);
               (["resources"; "common"; "cleaning_list"], File (lines ["a"; ""; "b"]));
               (["resources"; "linux"], Dir);
               (["resources"; "linux"; "cleaning_list"], File (lines ["b"; "c"])) ];
     remote := ∅; log := []; extracted := [] |}.

(** The platform of [Inputs.platform], with a server behind it. *)
Definition served_platform : @Platform re_literal :=
  {| version := "1"; PLATFORM_RESOURCES := None;
     sandbox_root := ["build_sandbox"]; sandbox_patches := None;
     sourcearchive := None; sourcearchive_hashes := None;
     _ran_domain_substitution := false; _domain_regex_cache := None;
     fs := files archive_bytes good_manifest ["a/b.txt"; "c/d.txt"];
     remote := {[ archive_url "1" := B "fresh" ]}; log := []; extracted := [] |}.

(** An archive with an entry outside the versioned directory. *)
Definition stray : TarInfo := {| name := "elsewhere/x.txt"; member := File (B "stray") |}.

(** A state with an empty file system, and one where [build_sandbox] is a
    file. *)
Definition bare_platform (files : list (path * node)) : @Platform re_literal :=
  {| version := ""; PLATFORM_RESOURCES := None;
     sandbox_root := []; sandbox_patches := None;
     sourcearchive := Some ["stale"]; sourcearchive_hashes := None;
     _ran_domain_substitution := true; _domain_regex_cache := Some [];
     fs := list_to_map files; remote := ∅; log := []; extracted := [] |}.
End MoreInputs.

(** * Properties *)

(** One step of a computation of the monad: the operations are unfolded and
    the fields of the states they build are read. *)
Ltac run :=
  cbv [bind get ret raise modify logger item read_bytes read_str try_reraise];
  cbn [fs log extracted sourcearchive sourcearchive_hashes version sandbox_root
       sandbox_patches PLATFORM_RESOURCES _domain_regex_cache remote
       _ran_domain_substitution
       set_log set_fs set_extracted set_sourcearchive set_domain_regex_cache
       nth_error fst snd].

(** ** The hash manifest verifier *)
Section Verifier.
Context {hashlib : HashLib} {re : ReLib} {tarfile : TarLib}.

Lemma set_log_set_log (f g : list log_record -> list log_record) (w : Platform) :
  set_log f (set_log g w) = set_log (fun l => f (g l)) w.
Proof. reflexivity. Qed.

(** Lines that verify are gone through, and none of them logs an error. *)
Lemma check_hash_lines_verifies (archive : path) (data : bytes) (before : list string) :
  Forall (fun l => verifies data l = true) before ->
  exists lg, no_error lg /\
    forall rest w,
      sourcearchive w = Some archive ->
      fs w !! archive = Some (File data) ->
      check_hash_lines (before ++ rest) w
      = check_hash_lines rest (set_log (fun l => l ++ lg) w).
Proof.
  induction 1 as [|l before Hl _ IH].
  - exists []. split; [constructor|]. intros rest w _ _. simpl.
    f_equal. destruct w; unfold set_log; simpl. by rewrite app_nil_r.
  - destruct IH as (lg & Hlg & IH).
    unfold verifies in Hl.
    destruct (str_split "  " l) as [|algorithm fields] eqn:Hsplit; [done|].
    destruct (algorithms_available algorithm) eqn:Havail.
    + destruct fields as [|hashhex fields]; [done|].
      exists ([Log INFO ("Running '" +:+ algorithm +:+ "' hash check...");
               Log DEBUG ("'" +:+ algorithm +:+ "' hash matches")] ++ lg).
      split.
      { repeat constructor; simpl; try done. }
      intros rest w Ha Hf. cbn [app check_hash_lines].
      rewrite Hsplit. run. rewrite Havail, Ha. run. rewrite Hf, Hl.
      rewrite IH by done.
      f_equal. unfold set_log. cbn. f_equal.
      by rewrite <- !app_assoc.
    + exists ([Log WARNING ("Hash algorithm '" +:+ algorithm
                            +:+ "' not available. Skipping...")] ++ lg).
      split.
      { repeat constructor; simpl; try done. }
      intros rest w Ha Hf. cbn [app check_hash_lines].
      rewrite Hsplit. run. rewrite Havail.
      rewrite IH by done.
      f_equal. unfold set_log. cbn. f_equal.
      by rewrite <- !app_assoc.
Qed.

Lemma check_hash_line_available (w : Platform) (archive : path) (data : bytes)
    (hash_line algorithm hashhex : string) (fields rest : list string) :
  sourcearchive w = Some archive ->
  fs w !! archive = Some (File data) ->
  str_split "  " hash_line = algorithm :: hashhex :: fields ->
  algorithms_available algorithm = true ->
  check_hash_lines (hash_line :: rest) w
  = if String.eqb (hexdigest algorithm data) hashhex
    then check_hash_lines rest
           (set_log (fun l => l ++ [Log INFO ("Running '" +:+ algorithm +:+ "' hash check...");
                                    Log DEBUG ("'" +:+ algorithm +:+ "' hash matches")]) w)
    else (Ok tt,
          set_log (fun l => l ++ [Log INFO ("Running '" +:+ algorithm +:+ "' hash check...");
                                  Log ERROR ("Archive does not have matching '" +:+ algorithm
                                             +:+ "' hash '" +:+ hashhex +:+ "'")]) w).
Proof.
  intros Ha Hf Hsplit Havail. cbn [check_hash_lines].
  rewrite Hsplit. run. rewrite Havail, Ha. run. rewrite Hf.
  destruct (String.eqb _ _); run.
  - f_equal. unfold set_log. cbn. by rewrite <- app_assoc.
  - f_equal. unfold set_log. cbn. by rewrite <- app_assoc.
Qed.

(** C1, as amended: in a manifest whose first line that does not verify
    names an available algorithm and carries a digest other than the one
    recomputed over the archive, the check stops at that line; the last
    record it logs is an error that names the algorithm and the expected
    digest of that line (the recomputed digest is not part of it), and no
    error is logged before it. *)
Theorem check_source_archive_first_mismatch
    (w : Platform) (hashes archive : path) (manifest data : bytes)
    (before after : list string) (hash_line algorithm hashhex : string)
    (fields : list string) :
  sourcearchive_hashes w = Some hashes ->
  fs w !! hashes = Some (File manifest) ->
  sourcearchive w = Some archive ->
  fs w !! archive = Some (File data) ->
  str_split LF (read_text manifest) = before ++ hash_line :: after ->
  Forall (fun l => verifies data l = true) before ->
  str_split "  " hash_line = algorithm :: hashhex :: fields ->
  algorithms_available algorithm = true ->
  hexdigest algorithm data <> hashhex ->
  exists lg, no_error lg /\
    _check_source_archive w
    = (Ok tt,
       set_log (fun l => l ++ lg ++
                  [Log INFO ("Running '" +:+ algorithm +:+ "' hash check...");
                   Log ERROR ("Archive does not have matching '" +:+ algorithm
                              +:+ "' hash '" +:+ hashhex +:+ "'")]) w).
Proof.
  intros Hh Hm Ha Hf Hlines Hbefore Hsplit Havail Hne.
  destruct (check_hash_lines_verifies archive data before Hbefore) as (lg & Hlg & Hrun).
  exists lg. split; [done|].
  unfold _check_source_archive. run. rewrite Hh. run. rewrite Hm.
  rewrite Hlines, Hrun by done.
  rewrite (check_hash_line_available _ archive data _ algorithm hashhex fields) by done.
  apply String.eqb_neq in Hne. rewrite Hne.
  f_equal. unfold set_log. cbn. by rewrite <- !app_assoc.
Qed.

(** C7, as amended: a line whose algorithm is available verifies
    exactly when its digest field is, character for character, the hex
    digest recomputed over the archive; with any other field, one that
    differs in letter case included, the check logs the mismatch and
    stops. *)
Theorem check_hash_line_exact (w : Platform) (archive : path) (data : bytes)
    (hash_line algorithm hashhex : string) (fields rest : list string) :
  sourcearchive w = Some archive ->
  fs w !! archive = Some (File data) ->
  str_split "  " hash_line = algorithm :: hashhex :: fields ->
  algorithms_available algorithm = true ->
  check_hash_lines (hash_line :: rest) w
  = if decide (hexdigest algorithm data = hashhex)
    then check_hash_lines rest
           (set_log (fun l => l ++ [Log INFO ("Running '" +:+ algorithm +:+ "' hash check...");
                                    Log DEBUG ("'" +:+ algorithm +:+ "' hash matches")]) w)
    else (Ok tt,
          set_log (fun l => l ++ [Log INFO ("Running '" +:+ algorithm +:+ "' hash check...");
                                  Log ERROR ("Archive does not have matching '" +:+ algorithm
                                             +:+ "' hash '" +:+ hashhex +:+ "'")]) w).
Proof.
  intros Ha Hf Hsplit Havail.
  rewrite (check_hash_line_available w archive data _ algorithm hashhex fields) by done.
  destruct (decide _) as [H|H].
  - apply String.eqb_eq in H. by rewrite H.
  - apply String.eqb_neq in H. by rewrite H.
Qed.
End Verifier.

Section VerifierRuns.
Import Inputs.
Existing Instance hashlib_sha1.
Existing Instance re_literal.
Existing Instance tarfile_example.

Lemma check_source_archive_first_mismatch_witness :
  exists lg, no_error lg /\
    _check_source_archive (platform bad_manifest)
    = (Ok tt,
       set_log (fun l => l ++ lg ++
                  [Log INFO "Running 'sha1' hash check...";
                   Log ERROR "Archive does not have matching 'sha1' hash '0000000000000000000000000000000000000000'"])
               (platform bad_manifest)).
Proof.
  apply (check_source_archive_first_mismatch (platform bad_manifest)
           ["chromium-1.tar.xz.hashes"] ["chromium-1.tar.xz"] bad_manifest archive_bytes
           [] [""] "sha1  0000000000000000000000000000000000000000" "sha1"
           "0000000000000000000000000000000000000000" []);
    try (vm_compute; reflexivity); try constructor.
  vm_compute. discriminate.
Defined.

(** C1, as stated, fails: on a manifest whose [sha1] line carries a
    wrong digest the check returns what it returns on a manifest that
    verifies, no record of the log mentions the recomputed digest, and
    [setup_chromium_source] goes on to extract the archive. *)
Lemma check_source_archive_mismatch_not_reported :
  hexdigest "sha1" archive_bytes = "a9993e364706816aba3e25717850c26c9cd0d89d"
  /\ fst (_check_source_archive (platform bad_manifest))
     = fst (_check_source_archive (platform good_manifest))
  /\ forallb (fun r => negb (contains "a9993e364706816aba3e25717850c26c9cd0d89d" (msg r)))
       (log (snd (_check_source_archive (platform bad_manifest)))) = true
  /\ (let r := setup_chromium_source false false true true [] true None None
                 (platform bad_manifest) in
      fst r = Ok tt
      /\ extracted (snd r) = [("chromium-1/e/f.txt", ["build_sandbox"; "e"; "f.txt"])]).
Proof. vm_compute. repeat split. Qed.

Lemma check_hash_line_exact_witness :
  check_hash_lines ["sha1  A9993E364706816ABA3E25717850C26C9CD0D89D"] (platform upper_manifest)
  = (Ok tt,
     set_log (fun l => l ++ [Log INFO "Running 'sha1' hash check...";
                             Log ERROR "Archive does not have matching 'sha1' hash 'A9993E364706816ABA3E25717850C26C9CD0D89D'"])
             (platform upper_manifest)).
Proof.
  etrans.
  - apply (check_hash_line_exact (platform upper_manifest) ["chromium-1.tar.xz"] archive_bytes
             "sha1  A9993E364706816ABA3E25717850C26C9CD0D89D" "sha1"
             "A9993E364706816ABA3E25717850C26C9CD0D89D" [] []);
      vm_compute; reflexivity.
  - vm_compute. reflexivity.
Defined.

(** C7, as stated, fails: the expected digest of the manifest is the
    recomputed one written in upper case, and the check reports a
    mismatch. *)
Lemma check_source_archive_case_sensitive :
  str_lower "A9993E364706816ABA3E25717850C26C9CD0D89D" = hexdigest "sha1" archive_bytes
  /\ log (snd (_check_source_archive (platform upper_manifest)))
     = [Log INFO "Running 'sha1' hash check...";
        Log ERROR "Archive does not have matching 'sha1' hash 'A9993E364706816ABA3E25717850C26C9CD0D89D'"].
Proof. vm_compute. split; reflexivity. Qed.
End VerifierRuns.

(** ** Paths *)
Section Paths.
Lemma elem_of_rev {A : Type} (x : A) (l : list A) : x ∈ rev l <-> x ∈ l.
Proof. rewrite !list_elem_of_In. symmetry. apply in_rev. Qed.

Lemma split_from_single {A : Type} `{EqDecision A} (c : A) (s cur : list A) :
  c ∉ cur -> Forall (fun seg => c ∉ seg) (split_from [c] s 0 cur).
Proof.
  revert cur. induction s as [|x s IH]; intros cur Hcur; cbn [split_from].
  - constructor; [|constructor]. by rewrite elem_of_rev.
  - cbn [starts_with length Nat.sub]. rewrite andb_true_r.
    destruct (decide (c = x)) as [Hx|Hx].
    + rewrite bool_decide_eq_true_2 by done.
      constructor; [by rewrite elem_of_rev|]. apply IH. apply not_elem_of_nil.
    + rewrite bool_decide_eq_false_2 by done. apply IH.
      intros [?|?]%elem_of_cons; done.
Qed.

Lemma prefix_slash (seg : list ascii) :
  "/"%char ∉ seg -> String.prefix "/" (string_of_list_ascii seg) = false.
Proof.
  destruct seg as [|x seg]; [done|]. intros Hx.
  cbn [string_of_list_ascii String.prefix].
  destruct (ascii_dec "/"%char x) as [<-|]; [|done].
  exfalso. apply Hx. left.
Qed.

(** The components of a parsed path are the pieces between slashes. *)
Lemma components_unrooted (s : string) :
  Forall (fun c => String.prefix "/" c = false /\ c <> "")
         (List.filter is_component (str_split "/" s)).
Proof.
  apply Forall_forall. intros c Hc.
  apply list_elem_of_In, filter_In in Hc as [Hc Hcomp].
  split.
  - unfold str_split in Hc.
    apply list_elem_of_In, list_elem_of_fmap in Hc as (seg & -> & Hseg).
    apply prefix_slash.
    pose proof (split_from_single "/"%char (list_ascii_of_string s) []) as Hall.
    rewrite Forall_forall in Hall. apply Hall; [apply not_elem_of_nil|]. exact Hseg.
  - intros ->. done.
Qed.

Lemma PurePosixPath_parts (s : string) :
  exists comps,
    Forall (fun c => String.prefix "/" c = false /\ c <> "") comps /\
    (PurePosixPath s = comps \/
     exists r, PurePosixPath s = r :: comps /\ String.prefix "/" r = true).
Proof.
  exists (List.filter is_component (str_split "/" s)).
  split; [apply components_unrooted|].
  unfold PurePosixPath, posix_root.
  destruct (String.prefix "///" s); [right; by eexists|].
  destruct (String.prefix "//" s); [right; by eexists|].
  destruct (String.prefix "/" s); [right; by eexists|].
  by left.
Qed.

Lemma is_rooted_drop (comps : path) (n : nat) :
  Forall (fun c => String.prefix "/" c = false /\ c <> "") comps ->
  is_rooted (drop n comps) = false.
Proof.
  intros H. apply (Forall_drop _ n) in H.
  destruct (drop n comps) as [|c l]; [done|].
  apply Forall_cons in H as [[H _] _]. exact H.
Qed.

(** A path taken relative to another parsed path has no root. *)
Lemma relative_to_unrooted (s t : string) (rp : path) :
  relative_to (PurePosixPath s) (PurePosixPath t) = Some rp -> is_rooted rp = false.
Proof.
  unfold relative_to.
  destruct (PurePosixPath_parts s) as (cs & Hcs & [Hs | (rs & Hs & Hrs)]);
    destruct (PurePosixPath_parts t) as (ct & Hct & [Ht | (rt & Ht & Hrt)]);
    rewrite Hs, Ht; unfold abs_parts.
  - assert (is_rooted cs = false) as -> by apply (is_rooted_drop cs 0 Hcs).
    assert (is_rooted ct = false) as -> by apply (is_rooted_drop ct 0 Hct).
    destruct (if Nat.eqb _ _ then _ else _); [done|].
    intros [= <-]. by apply is_rooted_drop.
  - assert (is_rooted cs = false) as -> by apply (is_rooted_drop cs 0 Hcs).
    assert (is_rooted (rt :: ct) = true) as -> by exact Hrt.
    cbn [length Nat.eqb].
    case_bool_decide as Heq; [|done]. cbn [negb]. intros _.
    destruct cs as [|c cs]; [done|]. cbn in Heq. injection Heq as Hc _.
    apply Forall_cons in Hcs as [[_ Hne] _]. by subst.
  - assert (is_rooted (rs :: cs) = true) as -> by exact Hrs.
    assert (is_rooted ct = false) as -> by apply (is_rooted_drop ct 0 Hct).
    destruct ct as [|c ct]; [done|]. cbn [length Nat.eqb].
    case_bool_decide as Heq; [|done]. cbn in Heq. injection Heq as Hc _.
    apply Forall_cons in Hct as [[_ Hne] _]. by subst.
  - assert (is_rooted (rs :: cs) = true) as -> by exact Hrs.
    assert (is_rooted (rt :: ct) = true) as -> by exact Hrt.
    cbn [length Nat.eqb negb drop]. case_bool_decide; [|done].
    intros [= <-]. by apply is_rooted_drop.
Qed.

(** What is put under a directory is found back relative to it. *)
Lemma relative_to_join (root rp : path) :
  is_rooted rp = false -> relative_to (root // rp) root = Some rp.
Proof.
  intros Hrp. unfold path_join. rewrite Hrp. unfold relative_to, abs_parts.
  destruct root as [|r root].
  - cbn [app]. rewrite Hrp. cbn. by rewrite ?Hrp.
  - assert (is_rooted ((r :: root) ++ rp) = is_rooted (r :: root)) as -> by done.
    destruct (is_rooted (r :: root)).
    + cbn [length Nat.eqb].
      change ("" :: (r :: root) ++ rp) with (("" :: r :: root) ++ rp).
      rewrite (take_app_length' ("" :: r :: root) rp) by done.
      rewrite (drop_app_length' ("" :: r :: root) rp) by done.
      by rewrite bool_decide_eq_true_2.
    + cbn [length Nat.eqb].
      rewrite (take_app_length' (r :: root) rp) by done.
      rewrite (drop_app_length' (r :: root) rp) by done.
      by rewrite bool_decide_eq_true_2.
Qed.
End Paths.

(** ** The archive extractor *)
Section Denylist.
Local Abbreviation count := (count_occ string_dec).

Lemma count_list_remove (x r : string) (cl : list string) :
  count (list_remove r cl) x = count cl x - (if decide (x = r) then 1 else 0).
Proof.
  induction cl as [|y cl IH]; cbn [list_remove].
  - by destruct (decide _).
  - destruct (String.eqb_spec r y) as [->|Hne].
    + destruct (decide (x = y)) as [->|Hxy].
      * rewrite count_occ_cons_eq by done. lia.
      * rewrite count_occ_cons_neq by done. lia.
    + destruct (decide (x = y)) as [->|Hxy].
      * rewrite !count_occ_cons_eq by done. rewrite IH.
        destruct (decide (y = r)); [by subst|]. lia.
      * rewrite !count_occ_cons_neq by done. exact IH.
Qed.

Lemma count_elem_of (x : string) (l : list string) : x ∈ l <-> 0 < count l x.
Proof. rewrite list_elem_of_In. apply count_occ_In. Qed.

(** Each path stays on the denylist as often as it is listed beyond its
    entries in the archive. *)
Lemma consume_pending (x : string) (paths : list string) :
  forall denylist, count (snd (consume paths denylist)) x = count denylist x - count paths x.
Proof.
  induction paths as [|r paths IH]; intros denylist; cbn [consume].
  - cbn. lia.
  - case_bool_decide as Hr.
    + rewrite IH, count_list_remove.
      destruct (decide (x = r)) as [->|Hne].
      * rewrite count_occ_cons_eq by done. lia.
      * rewrite count_occ_cons_neq by done. lia.
    + specialize (IH denylist). destruct (consume paths denylist) as [kept pending].
      cbn [snd] in *. rewrite IH.
      destruct (decide (x = r)) as [->|Hne].
      * rewrite count_occ_cons_eq by done.
        rewrite count_elem_of in Hr. lia.
      * rewrite count_occ_cons_neq by done. lia.
Qed.

(** Each path is extracted as often as the archive holds it beyond its
    entries on the denylist. *)
Lemma consume_kept (x : string) (paths : list string) :
  forall denylist, count (fst (consume paths denylist)) x = count paths x - count denylist x.
Proof.
  induction paths as [|r paths IH]; intros denylist; cbn [consume].
  - done.
  - case_bool_decide as Hr.
    + rewrite IH, count_list_remove.
      destruct (decide (x = r)) as [->|Hne].
      * rewrite count_occ_cons_eq by done. rewrite count_elem_of in Hr. lia.
      * rewrite count_occ_cons_neq by done. lia.
    + specialize (IH denylist). destruct (consume paths denylist) as [kept pending].
      cbn [fst] in *.
      destruct (decide (x = r)) as [->|Hne].
      * rewrite !count_occ_cons_eq by done. rewrite IH.
        rewrite count_elem_of in Hr. lia.
      * rewrite !count_occ_cons_neq by done. exact IH.
Qed.

Lemma list_remove_NoDup (r : string) (cl : list string) :
  NoDup cl -> list_remove r cl = List.filter (fun x => negb (String.eqb r x)) cl.
Proof.
  induction 1 as [|y cl Hy Hcl IH]; cbn [list_remove List.filter]; [done|].
  destruct (String.eqb_spec r y) as [->|Hne]; cbn [negb].
  - symmetry. apply forallb_filter_id. apply forallb_forall. intros z Hz.
    destruct (String.eqb_spec y z) as [->|]; [|done].
    by apply list_elem_of_In in Hz.
  - by rewrite IH.
Qed.

(** On a denylist without repetition, what stays pending is the
    denylist without the paths of the archive, in the denylist's order. *)
Lemma consume_pending_NoDup (paths : list string) :
  forall denylist, NoDup denylist ->
    snd (consume paths denylist)
    = List.filter (fun x => negb (bool_decide (x ∈ paths))) denylist.
Proof.
  induction paths as [|r paths IH]; intros denylist Hnd; cbn [consume].
  - cbn [snd]. symmetry. apply forallb_filter_id. apply forallb_forall.
    intros x _. rewrite bool_decide_eq_false_2; [done|]. apply not_elem_of_nil.
  - assert (Hfilter :
      List.filter (fun x => negb (bool_decide (x ∈ r :: paths))) denylist
      = List.filter (fun x => negb (bool_decide (x ∈ paths)))
          (List.filter (fun x => negb (String.eqb r x)) denylist)).
    { clear. induction denylist as [|y l IHl]; [done|]. cbn [List.filter].
      destruct (String.eqb_spec r y) as [->|Hne]; cbn [negb].
      - rewrite bool_decide_eq_true_2 by left. cbn [negb]. exact IHl.
      - cbn [List.filter]. rewrite <- IHl.
        destruct (decide (y ∈ paths)) as [Hy|Hy].
        + rewrite !bool_decide_eq_true_2; [done..|]. by right.
        + rewrite !bool_decide_eq_false_2; [done..|].
          intros [?|?]%elem_of_cons; congruence. }
    rewrite Hfilter, <- list_remove_NoDup by done.
    case_bool_decide as Hr.
    + apply IH. rewrite list_remove_NoDup by done.
      by apply NoDup_ListNoDup, List.NoDup_filter, NoDup_ListNoDup.
    + specialize (IH denylist Hnd).
      destruct (consume paths denylist) as [kept pending]. cbn [snd] in *.
      rewrite IH. f_equal. rewrite list_remove_NoDup by done.
      symmetry. apply forallb_filter_id. apply forallb_forall. intros z Hz.
      destruct (String.eqb_spec r z) as [->|]; [|done].
      by apply list_elem_of_In in Hz.
Qed.
End Denylist.

Section Extractor.
Context {hashlib : HashLib} {re : ReLib} {tarfile : TarLib}.
Local Abbreviation count := (count_occ string_dec).

Lemma extract_member_ok (tarinfo : TarInfo) (dest : path) (w w1 : Platform) (u : unit) :
  _extract_member tarinfo dest w = (Ok u, w1) ->
  extracted w1 = extracted w ++ [(name tarinfo, dest)]
  /\ version w1 = version w /\ sandbox_root w1 = sandbox_root w.
Proof.
  unfold _extract_member. run.
  destruct (List.find _ _); [done|].
  destruct (member tarinfo); run.
  - destruct (is_dir _ _); [done|]. by intros [= _ <-].
  - destruct (exists_ _ _); by intros [= _ <-].
Qed.

(** The loop refines [consume]: when it ends, every member had a
    relative path, and the calls to [_extract_member] and the list left
    are the two lists [consume] gives on those paths. *)
Lemma extract_members_consume (members : list TarInfo) :
  forall (cl : list string) (w : Platform) (cl' : list string) (w' : Platform),
    extract_members members cl w = (Ok cl', w') ->
    exists calls,
      extracted w' = extracted w ++ calls
      /\ version w' = version w /\ sandbox_root w' = sandbox_root w
      /\ length (archive_paths (version w) members) = length members
      /\ consume (archive_paths (version w) members) cl
         = (omap (fun call => path_str <$> relative_to (snd call) (sandbox_root w)) calls,
            cl').
Proof.
  induction members as [|tarinfo rest IH]; intros cl w cl' w'.
  - cbn [extract_members]. run. intros [= <- <-]. exists [].
    by rewrite app_nil_r.
  - cbn [extract_members]. run.
    unfold archive_paths. cbn [omap list_omap]. fold (archive_paths (version w) rest).
    unfold relative_path at 1 2.
    destruct (relative_to _ _) as [rp|] eqn:Hrel; [|done].
    cbn [fmap option_fmap option_map].
    cbn [consume].
    destruct (bool_decide (path_str rp ∈ cl)) eqn:Hin.
    + intros Hrun. apply IH in Hrun as (calls & He & Hv & Hs & Hlen & Hcons).
      exists calls. repeat split; try done.
      cbn [length]. by rewrite Hlen.
    + destruct (_extract_member tarinfo (sandbox_root w // rp) w) as [[u|e] w1] eqn:Hem;
        [|done].
      apply extract_member_ok in Hem as (He1 & Hv1 & Hs1).
      intros Hrun. apply IH in Hrun as (calls & He & Hv & Hs & Hlen & Hcons).
      exists ((name tarinfo, sandbox_root w // rp) :: calls).
      rewrite Hv1 in *. rewrite Hs1 in *.
      repeat split; try done.
      * rewrite He, He1. by rewrite <- app_assoc.
      * cbn [length]. by rewrite Hlen.
      * rewrite Hcons. cbn [omap list_omap snd].
        rewrite relative_to_join by (eapply relative_to_unrooted, Hrel).
        done.
Qed.

Lemma extract_source_archive_consume
    (w w' : Platform) (archive : path) (data : bytes) (members : list TarInfo)
    (denylist remaining : list string) :
  sourcearchive w = Some archive ->
  fs w !! archive = Some (File data) ->
  tarfile_open data = Some members ->
  _extract_source_archive denylist w = (Ok remaining, w') ->
  length (archive_paths (version w) members) = length members
  /\ consume (archive_paths (version w) members) denylist = (materialized w w', remaining).
Proof.
  intros Ha Hf Ht. unfold _extract_source_archive. run. rewrite Ha, Hf, Ht.
  intros (calls & He & _ & _ & Hlen & Hcons)%extract_members_consume.
  split; [done|]. unfold materialized. by rewrite He, drop_app_length.
Qed.

(** C2, as amended: when the archive holds no relative path twice and
    the extraction ends, every entry of the archive has a relative path;
    the paths materialized under the sandbox root are the paths of the
    archive that are not on the denylist, the denylist entries matched
    are the paths of the archive that are on it (as equal strings), the
    two sets are disjoint and together they are the paths of the
    archive. *)
Theorem extract_source_archive_partition
    (w w' : Platform) (archive : path) (data : bytes) (members : list TarInfo)
    (denylist remaining : list string) :
  sourcearchive w = Some archive ->
  fs w !! archive = Some (File data) ->
  tarfile_open data = Some members ->
  _extract_source_archive denylist w = (Ok remaining, w') ->
  NoDup (archive_paths (version w) members) ->
  length (archive_paths (version w) members) = length members
  /\ (forall x, x ∈ materialized w w'
                <-> x ∈ archive_paths (version w) members /\ x ∉ denylist)
  /\ (forall x, matched denylist remaining x
                <-> x ∈ archive_paths (version w) members /\ x ∈ denylist)
  /\ (forall x, ~ (x ∈ materialized w w' /\ matched denylist remaining x))
  /\ (forall x, x ∈ archive_paths (version w) members
                <-> x ∈ materialized w w' \/ matched denylist remaining x).
Proof.
  intros Ha Hf Ht Hrun Hnd.
  destruct (extract_source_archive_consume _ _ _ _ _ _ _ Ha Hf Ht Hrun) as [Hlen Hcons].
  split; [done|].
  set (paths := archive_paths (version w) members) in *.
  assert (Hkept : forall x, count (materialized w w') x = count paths x - count denylist x).
  { intros x. rewrite <- (consume_kept x paths denylist). by rewrite Hcons. }
  assert (Hpend : forall x, count remaining x = count denylist x - count paths x).
  { intros x. rewrite <- (consume_pending x paths denylist). by rewrite Hcons. }
  assert (Hone : forall x, count paths x <= 1).
  { by apply NoDup_count_occ, NoDup_ListNoDup. }
  assert (Hin : forall x l, x ∈ l <-> 0 < count l x) by apply count_elem_of.
  unfold matched.
  split; [|split; [|split]]; intros x; specialize (Hone x).
  - rewrite !Hin, Hkept. lia.
  - rewrite !Hin, Hpend. lia.
  - rewrite !Hin, Hkept, Hpend. lia.
  - rewrite !Hin, Hkept, Hpend. lia.
Qed.

(** C3, as amended: on a denylist that lists no path twice, when the
    extraction ends the list is left with its entries that are not
    relative paths of the archive, in their order, and
    [setup_chromium_source] logs one warning for each of them. *)
Theorem setup_extract_reports_missing
    (w w1 w2 : Platform) (archive : path) (data : bytes) (members : list TarInfo)
    (denylist remaining : list string) :
  _read_list_resource CLEANING_LIST false
    (set_log (fun l => l ++ [Log INFO "Extracting source archive into building sandbox..."]) w)
  = (Ok denylist, w1) ->
  sourcearchive w1 = Some archive ->
  fs w1 !! archive = Some (File data) ->
  tarfile_open data = Some members ->
  _extract_source_archive denylist w1 = (Ok remaining, w2) ->
  NoDup denylist ->
  remaining
  = List.filter (fun x => negb (bool_decide (x ∈ archive_paths (version w1) members)))
      denylist
  /\ setup_extract true true w
     = (Ok tt,
        set_log (fun l => l ++ ((fun i => Log WARNING ("File does not exist in tar file: " +:+ i))
                                <$> remaining)) w2).
Proof.
  intros Hread Ha Hf Ht Hrun Hnd.
  destruct (extract_source_archive_consume _ _ _ _ _ _ _ Ha Hf Ht Hrun) as [_ Hcons].
  split.
  - rewrite <- (consume_pending_NoDup _ _ Hnd). by rewrite Hcons.
  - unfold setup_extract. run. unfold line in *. rewrite Hread, Hrun. done.
Qed.
End Extractor.

Section ExtractorRuns.
Import Inputs.
Existing Instance hashlib_sha1.
Existing Instance re_literal.
Existing Instance tarfile_example.

Lemma extract_source_archive_partition_witness :
  let w := platform good_manifest in
  let denylist := ["a/b.txt"; "c/d.txt"] in
  let r := _extract_source_archive denylist w in
  length (archive_paths "1" members) = 2
  /\ (forall x, x ∈ materialized w (snd r) <-> x ∈ archive_paths "1" members /\ x ∉ denylist)
  /\ (forall x, matched denylist ["c/d.txt"] x <-> x ∈ archive_paths "1" members /\ x ∈ denylist)
  /\ (forall x, ~ (x ∈ materialized w (snd r) /\ matched denylist ["c/d.txt"] x))
  /\ (forall x, x ∈ archive_paths "1" members
                <-> x ∈ materialized w (snd r) \/ matched denylist ["c/d.txt"] x).
Proof.
  intros w denylist r.
  apply (extract_source_archive_partition w (snd r) ["chromium-1.tar.xz"] archive_bytes
           members denylist ["c/d.txt"]); try (vm_compute; reflexivity).
  vm_compute. by apply (bool_decide_unpack _).
Defined.

(** C2, as stated, fails: the archive holds [a/b.txt] twice and the
    denylist once; the first entry is matched, the second is extracted,
    and the path is in both sets. *)
Lemma extract_source_archive_not_disjoint :
  let w := platform_of twice_bytes good_manifest ["a/b.txt"] in
  let r := _extract_source_archive ["a/b.txt"] w in
  archive_paths "1" twice_members = ["a/b.txt"; "a/b.txt"]
  /\ fst r = Ok []
  /\ materialized w (snd r) = ["a/b.txt"]
  /\ matched ["a/b.txt"] [] "a/b.txt".
Proof. vm_compute. repeat split. apply le_n. Qed.

Lemma setup_extract_reports_missing_witness :
  let w := platform good_manifest in
  let w1 := set_log (fun l => l ++ [Log INFO "Extracting source archive into building sandbox..."]) w in
  let w2 := snd (_extract_source_archive ["a/b.txt"; "c/d.txt"] w1) in
  ["c/d.txt"]
  = List.filter (fun x => negb (bool_decide (x ∈ archive_paths (version w1) members)))
      ["a/b.txt"; "c/d.txt"]
  /\ setup_extract true true w
     = (Ok tt,
        set_log (fun l => l ++ ((fun i => Log WARNING ("File does not exist in tar file: " +:+ i))
                                <$> ["c/d.txt"])) w2).
Proof.
  intros w w1 w2.
  apply (setup_extract_reports_missing w w1 w2 ["chromium-1.tar.xz"] archive_bytes members
           ["a/b.txt"; "c/d.txt"] ["c/d.txt"]); try (vm_compute; reflexivity).
  by apply (bool_decide_unpack _).
Defined.

(** C3, as stated, fails: the denylist lists [a/b.txt] twice and the
    archive holds it once; one of the two entries stays on the list and
    is reported as missing from the archive, which has it. *)
Lemma setup_extract_duplicate_left :
  let w := platform_of archive_bytes good_manifest ["a/b.txt"; "a/b.txt"] in
  archive_paths "1" members = ["a/b.txt"; "e/f.txt"]
  /\ fst (_extract_source_archive ["a/b.txt"; "a/b.txt"] w) = Ok ["a/b.txt"]
  /\ List.filter (fun x => negb (bool_decide (x ∈ archive_paths "1" members)))
       ["a/b.txt"; "a/b.txt"] = []
  /\ fst (setup_extract true true w) = Ok tt
  /\ log (snd (setup_extract true true w))
     = [Log INFO "Extracting source archive into building sandbox...";
        Log WARNING "File does not exist in tar file: a/b.txt"].
Proof. vm_compute. repeat split. Qed.
End ExtractorRuns.

(** ** The domain regex cache *)
Section RegexCache.
Context {hashlib : HashLib} {re : ReLib} {tarfile : TarLib}.

Lemma split_from_app {A : Type} `{EqDecision A} (c : A) (p s cur : list A) :
  c ∉ p -> split_from [c] (p ++ s) 0 cur = split_from [c] s 0 (rev p ++ cur).
Proof.
  revert cur. induction p as [|x p IH]; intros cur Hp; [done|].
  cbn [app split_from starts_with]. rewrite andb_true_r.
  rewrite bool_decide_eq_false_2 by (intros ->; apply Hp; left).
  rewrite IH by (intros ?; apply Hp; by right).
  cbn [rev]. by rewrite <- app_assoc.
Qed.

(** A line without [#] is one piece. *)
Lemma split_no_hash (line : bytes) :
  "#"%byte ∉ line -> split (B "#") line = [line].
Proof.
  intros Hl. unfold split. change (B "#") with ["#"%byte].
  rewrite <- (app_nil_r line) at 1. rewrite split_from_app by done.
  cbn. by rewrite app_nil_r, rev_involutive.
Qed.

Lemma split_from_head (s cur : bytes) :
  nth_error (split_from ["#"%byte] s 0 cur) 0 = Some (rev cur ++ before_hash s).
Proof.
  revert cur. induction s as [|x s IH]; intros cur; cbn [split_from before_hash].
  - cbn. by rewrite app_nil_r.
  - cbn [starts_with]. rewrite andb_true_r.
    destruct (decide ("#"%byte = x)) as [<-|Hne].
    + rewrite !bool_decide_eq_true_2 by done. cbn. by rewrite app_nil_r.
    + rewrite !bool_decide_eq_false_2 by done. rewrite IH. cbn [rev].
      by rewrite <- app_assoc.
Qed.

(** A line with a [#] splits into the bytes before the first [#], the
    bytes between the first and the second, and what follows. *)
Lemma split_hash (pattern rest : bytes) :
  "#"%byte ∉ pattern ->
  exists more, split (B "#") (pattern ++ "#"%byte :: rest)
               = pattern :: before_hash rest :: more.
Proof.
  intros Hp. unfold split. change (B "#") with ["#"%byte].
  rewrite split_from_app by done. cbn [split_from starts_with].
  rewrite bool_decide_eq_true_2 by done. cbn [andb length Nat.sub].
  rewrite app_nil_r, rev_involutive.
  pose proof (split_from_head rest []) as Hhead.
  destruct (split_from ["#"%byte] rest 0 []) as [|x more]; [done|].
  injection Hhead as ->. by exists more.
Qed.

(** Reading a list resource changes nothing but the log. *)
Lemma read_list_resource_in_state {L : Type} (read_lines : path -> M (list L))
    (len : L -> nat) (file_name : path) :
  (forall p w r w', read_lines p w = (r, w') -> w' = w) ->
  forall w r w',
    read_list_resource_in read_lines len file_name w = (r, w') ->
    w' = set_log (fun _ => log w') w.
Proof.
  intros Hread w r w'. unfold read_list_resource_in. run.
  destruct (read_lines (COMMON_RESOURCES // file_name) w) as [[l|e] w1] eqn:H1;
    apply Hread in H1 as ->; [|intros [= _ <-]; by destruct w].
  destruct (PLATFORM_RESOURCES w) as [pr|]; [|intros [= _ <-]; by destruct w].
  destruct (exists_ _ _); [|intros [= _ <-]; by destruct w].
  destruct (read_lines (pr // file_name) w) as [[l'|e] w2] eqn:H2;
    apply Hread in H2 as ->; intros [= _ <-]; by destruct w.
Qed.

Lemma read_bytes_state (p : path) (w : Platform) (r : res bytes) (w' : Platform) :
  read_bytes p w = (r, w') -> w' = w.
Proof.
  unfold read_bytes. run. destruct (fs w !! p) as [[c|]|];
    [| |destruct (is_dir _ _)]; by intros [= _ <-].
Qed.

Lemma read_list_resource_state (file_name : path) (is_binary : bool)
    (w : Platform) (r : res (list (line is_binary))) (w' : Platform) :
  _read_list_resource file_name is_binary w = (r, w') ->
  w' = set_log (fun _ => log w') w.
Proof.
  destruct is_binary; cbn [_read_list_resource]; apply read_list_resource_in_state;
    intros p w0 r0 w0'; cbv [bind ret read_str];
    destruct (read_bytes p w0) as [[c|e] w1] eqn:Hr; apply read_bytes_state in Hr as ->;
    by intros [= _ <-].
Qed.

Lemma parse_expressions_rules (expressions : list bytes) (rules : list regex_pair) :
  Forall2 parses_to expressions rules ->
  forall (w : Platform) (cache : list regex_pair),
    _domain_regex_cache w = Some cache ->
    parse_expressions expressions w
    = (Ok tt, set_domain_regex_cache (Some (cache ++ rules)) w).
Proof.
  induction 1 as [|expression rule expressions rules Hp _ IH]; intros w cache Hc.
  - cbn [parse_expressions]. run. rewrite app_nil_r, <- Hc. by destruct w.
  - destruct Hp as (pattern & rest & compiled & -> & Hpat & Hcomp & ->).
    cbn [parse_expressions].
    destruct (split_hash pattern rest Hpat) as [more ->]. run.
    rewrite Hcomp. run.
    rewrite (IH _ (cache ++ [(compiled, before_hash rest)]))
      by (unfold cache_append; by rewrite Hc).
    by rewrite <- app_assoc.
Qed.

(** C6, as amended: when the cache is empty and every line of the regex
    list has a [#] and a pattern that compiles, the rules returned (and
    cached) are, line by line, the compiled bytes before the first [#]
    with, as replacement, the bytes between the first [#] and the second
    one (or the end of the line); what follows a second [#] is left
    out. *)
Theorem get_parsed_domain_regexes_rules
    (w w1 : Platform) (expressions : list bytes) (rules : list regex_pair) :
  _domain_regex_cache w = None ->
  _read_list_resource DOMAIN_REGEX_LIST true (set_domain_regex_cache (Some []) w)
  = (Ok expressions, w1) ->
  Forall2 parses_to expressions rules ->
  _get_parsed_domain_regexes w
  = (Ok rules, set_domain_regex_cache (Some rules) w1).
Proof.
  intros Hnone Hread Hrules.
  pose proof (read_list_resource_state _ true _ _ _ Hread) as Hstate.
  unfold _get_parsed_domain_regexes. run.
  rewrite Hnone. run. unfold line in *. rewrite Hread.
  rewrite (parse_expressions_rules _ _ Hrules w1 []) by (by rewrite Hstate).
  done.
Qed.

Lemma before_hash_app (pattern rest : bytes) :
  "#"%byte ∉ pattern -> before_hash (pattern ++ "#"%byte :: rest) = pattern.
Proof.
  induction pattern as [|c pattern IH]; intros Hp; cbn [app before_hash].
  - by rewrite bool_decide_eq_true_2.
  - rewrite bool_decide_eq_false_2 by (intros ->; apply Hp; left).
    rewrite IH; [done|]. intros ?. apply Hp. by right.
Qed.

Lemma before_hash_no_hash (line : bytes) :
  "#"%byte ∉ line -> before_hash line = line.
Proof.
  induction line as [|c line IH]; intros Hl; cbn [before_hash]; [done|].
  rewrite bool_decide_eq_false_2 by (intros ->; apply Hl; left).
  rewrite IH; [done|]. intros ?. apply Hl. by right.
Qed.

(** Every line that is parsed to a rule has a [#]. *)
Lemma parses_to_hash (before : list bytes) (rules : list regex_pair) :
  Forall2 parses_to before rules ->
  forall expression, expression ∈ before -> "#"%byte ∈ expression.
Proof.
  induction 1 as [|x rule before rules Hp _ IH]; intros expression Hin.
  - by apply not_elem_of_nil in Hin.
  - apply elem_of_cons in Hin as [->|Hin]; [|by apply IH].
    destruct Hp as (pattern & rest & _ & -> & _). apply elem_of_app. right. left.
Qed.

(** Where the loop stops on a list with a line that has no [#]: at the
    first line that does not parse, with the rules of the lines before it
    appended to the cache and nothing else. *)
Lemma parse_expressions_stops (expressions : list bytes) :
  Exists (fun expression => "#"%byte ∉ expression) expressions ->
  exists (before : list bytes) (failing : bytes) (after : list bytes)
         (rules : list regex_pair) (e : exn),
    expressions = before ++ failing :: after
    /\ Forall2 parses_to before rules
    /\ (re_compile (before_hash failing) = None /\ e = ReError
        \/ is_Some (re_compile (before_hash failing))
           /\ ("#"%byte ∉ failing) /\ e = IndexError)
    /\ forall (w : Platform) (cache : list regex_pair),
         _domain_regex_cache w = Some cache ->
         parse_expressions expressions w
         = (Raise e, set_domain_regex_cache (Some (cache ++ rules)) w).
Proof.
  induction expressions as [|x rest IH]; intros Hex; [by apply Exists_nil in Hex|].
  destruct (decide ("#"%byte ∈ x)) as [Hin|Hnot].
  - apply list_elem_of_split_l in Hin as (pattern & tail & -> & Hpat).
    destruct (split_hash pattern tail Hpat) as [more Hsplit].
    destruct (re_compile pattern) as [compiled|] eqn:Hcomp.
    + apply Exists_cons in Hex as [Hx|Hex];
        [exfalso; apply Hx, elem_of_app; right; left|].
      destruct (IH Hex) as (before & failing & after & rules & e & -> & Hrules & He & Hrun).
      exists ((pattern ++ "#"%byte :: tail) :: before), failing, after,
             ((compiled, before_hash tail) :: rules), e.
      split; [done|]. split; [constructor; [by exists pattern, tail, compiled|done]|].
      split; [done|].
      intros w cache Hc. cbn [parse_expressions]. rewrite Hsplit. run.
      rewrite Hcomp. run.
      rewrite (Hrun _ (cache ++ [(compiled, before_hash tail)]))
        by (unfold cache_append; by rewrite Hc).
      by rewrite <- app_assoc.
    + exists [], (pattern ++ "#"%byte :: tail), rest, [], ReError.
      split; [done|]. split; [constructor|].
      split; [left; by rewrite before_hash_app|].
      intros w cache Hc. cbn [parse_expressions]. rewrite Hsplit. run.
      rewrite Hcomp, app_nil_r, <- Hc. by destruct w.
  - destruct (re_compile x) as [compiled|] eqn:Hcomp.
    + exists [], x, rest, [], IndexError.
      split; [done|]. split; [constructor|].
      split; [right; rewrite before_hash_no_hash by done; by rewrite Hcomp|].
      intros w cache Hc. cbn [parse_expressions]. rewrite split_no_hash by done. run.
      rewrite Hcomp. run. rewrite app_nil_r, <- Hc. by destruct w.
    + exists [], x, rest, [], ReError.
      split; [done|]. split; [constructor|].
      split; [left; by rewrite before_hash_no_hash|].
      intros w cache Hc. cbn [parse_expressions]. rewrite split_no_hash by done. run.
      rewrite Hcomp, app_nil_r, <- Hc. by destruct w.
Qed.

(** C10, as amended: when the cache is empty and the regex list has a
    line without any [#], the call of [_get_parsed_domain_regexes] that
    parses the list raises and returns no rule list.  It stops at the first
    line that does not parse, [failing], which is that line or one before
    it: with [re.error] when the bytes of [failing] before its first [#] do
    not compile, and with [IndexError] when they do and [failing] has no
    [#].  The line without [#] is not among the lines parsed, so it is
    neither skipped nor turned into a rule.  The state left is the one the
    reading of the list gave, with the cache holding exactly the rules of
    the lines before [failing]; any later call, whatever has become of the
    files, does not raise and returns that partial rule list. *)
Theorem get_parsed_domain_regexes_no_hash
    (w w1 : Platform) (expressions : list bytes) (expression : bytes) :
  _domain_regex_cache w = None ->
  _read_list_resource DOMAIN_REGEX_LIST true (set_domain_regex_cache (Some []) w)
  = (Ok expressions, w1) ->
  expression ∈ expressions ->
  "#"%byte ∉ expression ->
  exists (before : list bytes) (failing : bytes) (after : list bytes)
         (rules : list regex_pair) (e : exn),
    expressions = before ++ failing :: after
    /\ (expression ∉ before)
    /\ Forall2 parses_to before rules
    /\ (re_compile (before_hash failing) = None /\ e = ReError
        \/ is_Some (re_compile (before_hash failing))
           /\ ("#"%byte ∉ failing) /\ e = IndexError)
    /\ _get_parsed_domain_regexes w
       = (Raise e, set_domain_regex_cache (Some rules) w1)
    /\ forall f : filesystem -> filesystem,
         _get_parsed_domain_regexes (set_fs f (set_domain_regex_cache (Some rules) w1))
         = (Ok rules, set_fs f (set_domain_regex_cache (Some rules) w1)).
Proof.
  intros Hnone Hread Hin Hx.
  pose proof (read_list_resource_state _ true _ _ _ Hread) as Hstate.
  destruct (parse_expressions_stops expressions)
    as (before & failing & after & rules & e & Hsplit & Hrules & He & Hrun).
  { apply Exists_exists. eauto. }
  exists before, failing, after, rules, e.
  split; [done|].
  split; [intros Hb; by apply Hx, (parses_to_hash before rules)|].
  split; [done|]. split; [done|]. split.
  - unfold _get_parsed_domain_regexes. run.
    rewrite Hnone. run. unfold line in *. rewrite Hread.
    by rewrite (Hrun w1 []) by (by rewrite Hstate).
  - intros f. unfold _get_parsed_domain_regexes. by run.
Qed.
End RegexCache.

Section RegexCacheRuns.
Import Inputs.
Existing Instance hashlib_sha1.
Existing Instance re_literal.
Existing Instance tarfile_example.

Lemma get_parsed_domain_regexes_rules_witness :
  let w := regex_platform ["foo#bar"; "ab#a"] in
  _get_parsed_domain_regexes w
  = (Ok [(B "foo", B "bar"); (B "ab", B "a")],
     set_domain_regex_cache (Some [(B "foo", B "bar"); (B "ab", B "a")]) w).
Proof.
  intros w.
  apply (get_parsed_domain_regexes_rules w (set_domain_regex_cache (Some []) w)
           [B "foo#bar"; B "ab#a"]); try (vm_compute; reflexivity).
  repeat constructor.
  - exists (B "foo"), (B "bar"), (B "foo"). repeat split. by apply (bool_decide_unpack _).
  - exists (B "ab"), (B "a"), (B "ab"). repeat split. by apply (bool_decide_unpack _).
Defined.

(** C6, as stated, fails: of the line [a#b#c] the replacement kept is
    [b], not [b#c]. *)
Lemma get_parsed_domain_regexes_second_hash :
  fst (_get_parsed_domain_regexes (regex_platform ["a#b#c"])) = Ok [(B "a", B "b")]
  /\ B "b" <> B "b#c".
Proof. split; [vm_compute; reflexivity | discriminate]. Qed.

Lemma get_parsed_domain_regexes_no_hash_witness :
  let w := regex_platform ["foo#bar"; "nohash"] in
  let w1 := set_domain_regex_cache (Some []) w in
  exists (before : list bytes) (failing : bytes) (after : list bytes)
         (rules : list regex_pair) (e : exn),
    [B "foo#bar"; B "nohash"] = before ++ failing :: after
    /\ (B "nohash" ∉ before)
    /\ Forall2 parses_to before rules
    /\ (re_compile (before_hash failing) = None /\ e = ReError
        \/ is_Some (re_compile (before_hash failing))
           /\ ("#"%byte ∉ failing) /\ e = IndexError)
    /\ _get_parsed_domain_regexes w
       = (Raise e, set_domain_regex_cache (Some rules) w1)
    /\ forall f : filesystem -> filesystem,
         _get_parsed_domain_regexes (set_fs f (set_domain_regex_cache (Some rules) w1))
         = (Ok rules, set_fs f (set_domain_regex_cache (Some rules) w1)).
Proof.
  intros w w1.
  apply (get_parsed_domain_regexes_no_hash w w1 [B "foo#bar"; B "nohash"] (B "nohash"));
    try (vm_compute; reflexivity).
  - by apply (bool_decide_unpack _).
  - by apply (bool_decide_unpack _).
Defined.

(** C10, as stated, fails: the resource [foo#bar], [nohash] is malformed
    and the call that parses it raises, but the rule of its first line is
    in the cache by then, and the resource does yield a partial rule set:
    the next call returns that one rule without raising. *)
Remark get_parsed_domain_regexes_after_failure :
  let r := _get_parsed_domain_regexes (regex_platform ["foo#bar"; "nohash"]) in
  fst r = Raise IndexError
  /\ _domain_regex_cache (snd r) = Some [(B "foo", B "bar")]
  /\ _get_parsed_domain_regexes (snd r) = (Ok [(B "foo", B "bar")], snd r).
Proof. vm_compute. repeat split. Qed.
End RegexCacheRuns.

(** ** The domain substitution engine *)
Section Substitution.
Context {hashlib : HashLib} {re : ReLib} {tarfile : TarLib}.

(** The loop over the rules, with its two variables, computes [chain]:
    each rule works on what the rule before it gave, and the counts add
    up. *)
Lemma substitute_content_chain (regex_list : list regex_pair) :
  forall (content : bytes) (file_subs : nat) (w : Platform),
    substitute_content regex_list content file_subs w
    = match chain regex_list content with
      | Some (content', n) => (Ok (content', file_subs + n), w)
      | None => (Raise ReError, w)
      end.
Proof.
  induction regex_list as [|[compiled replacement] rest IH]; intros content k w;
    cbn [substitute_content chain].
  - run. by rewrite Nat.add_0_r.
  - destruct (re_subn compiled replacement content) as [[content1 n1]|]; [|done].
    rewrite IH. destruct (chain rest content1) as [[content2 n2]|]; [|done].
    by rewrite Nat.add_assoc.
Qed.

(** A file in which the rules find nothing is passed over. *)
Lemma domain_substitute_unmatched (regex_list : list regex_pair) (p : path)
    (rest : list path) (log_warnings : bool) (w : Platform) (content : bytes) :
  fs w !! p = Some (File content) ->
  chain regex_list content = Some (content, 0) ->
  _domain_substitute regex_list (p :: rest) log_warnings w
  = _domain_substitute regex_list rest log_warnings
      (if log_warnings then set_log (fun l => l ++ [no_match_warning p]) w else w).
Proof.
  intros Hf Hchain. cbn [_domain_substitute]. run. rewrite Hf.
  rewrite substitute_content_chain, Hchain. cbn [Nat.add Nat.ltb Nat.leb].
  by destruct log_warnings.
Qed.


Lemma chain_no_match (regex_list : list regex_pair) (content : bytes) :
  (forall rule, rule ∈ regex_list -> re_subn (fst rule) (snd rule) content = Some (content, 0)) ->
  chain regex_list content = Some (content, 0).
Proof.
  induction regex_list as [|[compiled replacement] rest IH]; intros Hall;
    cbn [chain]; [done|].
  pose proof (Hall (compiled, replacement)) as Hhead. cbn [fst snd] in Hhead.
  rewrite Hhead by left.
  rewrite IH; [done|]. intros rule Hr. apply Hall. by right.
Qed.

(** C8, as amended: when no rule finds a match in the content the
    files have (each rule, applied to it, returns it with a count of
    zero), a run of the engine performs no substitution: it ends
    normally, every file is byte-identical, and only the no-match
    warnings are logged.  A second pass over the output of a first one
    is such a run when this holds of the output. *)
Theorem domain_substitute_no_match (regex_list : list regex_pair)
    (file_list : list path) (log_warnings : bool) (w : Platform) :
  (forall p, p ∈ file_list ->
     exists content,
       fs w !! p = Some (File content)
       /\ forall rule, rule ∈ regex_list ->
            re_subn (fst rule) (snd rule) content = Some (content, 0)) ->
  _domain_substitute regex_list file_list log_warnings w
  = (Ok tt,
     if log_warnings then set_log (fun l => l ++ (no_match_warning <$> file_list)) w
     else w).
Proof.
  revert w. induction file_list as [|p rest IH]; intros w Hall.
  - cbn [_domain_substitute fmap list_fmap]. run.
    destruct log_warnings; [|done]. destruct w. unfold set_log. cbn.
    by rewrite app_nil_r.
  - destruct (Hall p) as (content & Hf & Hrules); [left|].
    rewrite (domain_substitute_unmatched _ _ _ _ _ content Hf)
      by (by apply chain_no_match).
    destruct log_warnings.
    + rewrite IH.
      * cbn [fmap list_fmap]. f_equal. unfold set_log. cbn. f_equal.
        by rewrite <- app_assoc.
      * intros q Hq. apply Hall. by right.
    + apply IH. intros q Hq. apply Hall. by right.
Qed.
End Substitution.

Section SubstitutionRuns.
Import Inputs.
Existing Instance hashlib_sha1.
Existing Instance re_literal.
Existing Instance tarfile_example.


(** The scenario of the rule [foo#bar] on two files: the one with [foo]
    ends with [bar] in its place, the other one is as it was and is
    warned about. *)
Example domain_substitute_foo_bar :
  let w := regex_platform ["foo#bar"] in
  let r := _domain_substitute foo_bar [one; two] true w in
  chain foo_bar (B "visit foo now") = Some (B "visit bar now", 1)
  /\ chain foo_bar (B "nothing here") = Some (B "nothing here", 0)
  /\ fst r = Ok tt
  /\ fs (snd r) !! one = Some (File (B "visit bar now"))
  /\ fs (snd r) !! two = fs w !! two
  /\ log (snd r) = [Log WARNING "File build_sandbox/two.cc has no matches"].
Proof. vm_compute. repeat split. Qed.

Lemma domain_substitute_no_match_witness :
  let w := snd (_domain_substitute foo_bar [one; two] true (regex_platform ["foo#bar"])) in
  _domain_substitute foo_bar [one; two] true w
  = (Ok tt, set_log (fun l => l ++ (no_match_warning <$> [one; two])) w).
Proof.
  intros w. apply (domain_substitute_no_match foo_bar [one; two] true w).
  intros p [->|[->|Hp%elem_of_nil]%elem_of_cons]%elem_of_cons; [| |done].
  - exists (B "visit bar now"). split; [vm_compute; reflexivity|].
    intros rule [->|Hr%elem_of_nil]%elem_of_cons; [|done]. vm_compute. reflexivity.
  - exists (B "nothing here"). split; [vm_compute; reflexivity|].
    intros rule [->|Hr%elem_of_nil]%elem_of_cons; [|done]. vm_compute. reflexivity.
Defined.

(** C8, as stated, fails: the replacement [a] of the rule [ab#a] does
    not match the pattern [ab], yet on a file that holds [abb] the first
    pass leaves [ab] and the second pass makes one more substitution. *)
Lemma domain_substitute_second_pass_substitutes :
  let w := regex_platform ["ab#a"] in
  let w1 := snd (_domain_substitute ab_a [three] true w) in
  let w2 := snd (_domain_substitute ab_a [three] true w1) in
  re_subn (B "ab") (B "a") (B "a") = Some (B "a", 0)
  /\ fs w !! three = Some (File (B "abb"))
  /\ fs w1 !! three = Some (File (B "ab"))
  /\ chain ab_a (B "ab") = Some (B "a", 1)
  /\ fs w2 !! three = Some (File (B "a")).
Proof. vm_compute. repeat split. Qed.
End SubstitutionRuns.

(** ** The patch assembler *)
Section Patches.
Context {hashlib : HashLib} {re : ReLib} {tarfile : TarLib}.

(** With [PLATFORM_RESOURCES] left at [None], the first statement of
    [_generate_patches] divides [None] by a path: nothing is read,
    copied or written. *)
Lemma generate_patches_no_platform_resources
    (w : Platform) (output_dir : path) (run_domain_substitution : bool) :
  PLATFORM_RESOURCES w = None ->
  _generate_patches output_dir run_domain_substitution w = (Raise TypeError, w).
Proof. intros Hnone. unfold _generate_patches. run. by rewrite Hnone. Qed.
End Patches.

Section PatchesRuns.
Import Inputs.
Existing Instance hashlib_sha1.
Existing Instance re_literal.
Existing Instance tarfile_example.

(** With a platform override whose texts end with a line feed, the
    patch order written is the common one followed by the platform's. *)
Example generate_patches_with_platform_override :
  let files := common_patches (lines ["a.patch"]) ++ platform_patches (Some (lines ["b.patch"])) in
  let r := _generate_patches out false (patch_platform linux files None) in
  fst r = Ok tt
  /\ fs (snd r) !! (out // PATCH_ORDER) = Some (File (lines ["a.patch"; "b.patch"]))
  /\ line_count (lines ["a.patch"; "b.patch"])
     = line_count (lines ["a.patch"]) + line_count (lines ["b.patch"]).
Proof. vm_compute. repeat split. Qed.

(** The two texts are put end to end as they are: a common order that
    does not end with a line feed loses its last line to the first line
    of the platform's. *)
Example generate_patches_joined_lines :
  let files := common_patches (B "a.patch") ++ platform_patches (Some (lines ["b.patch"])) in
  let r := _generate_patches out false (patch_platform linux files None) in
  fst r = Ok tt
  /\ fs (snd r) !! (out // PATCH_ORDER) = Some (File (lines ["a.patchb.patch"]))
  /\ line_count (B "a.patch") = 1
  /\ line_count (lines ["b.patch"]) = 1
  /\ line_count (lines ["a.patchb.patch"]) = 1.
Proof. vm_compute. repeat split. Qed.

(** C5 on inputs without a platform override.  An instance of
    [GenericPlatform] itself ([PLATFORM_RESOURCES] is [None]) raises
    [TypeError] at once; with platform resources whose patches have no
    patch order, the second [unlink] raises [FileNotFoundError]: in both
    runs no patch order is written in the output directory. *)
Theorem generate_patches_without_platform_override :
  let common := common_patches (lines ["a.patch"]) in
  (let r := _generate_patches out false (patch_platform None common None) in
   fst r = Raise TypeError
   /\ fs (snd r) !! (out // PATCH_ORDER) = None)
  /\
  (let r := _generate_patches out false
              (patch_platform linux (common ++ platform_patches None) None) in
   fst r = Raise (FileNotFoundError (out // PATCH_ORDER))
   /\ fs (snd r) !! (out // PATCH_ORDER) = None
   /\ line_count (lines ["a.patch"]) = 1).
Proof. vm_compute. repeat split. Qed.

(** C9 on an output directory that is not [self.sandbox_patches].  The
    engine would change [a.patch] (one match).  When nothing has set the
    attribute, [_generate_patches] raises [AttributeError] after the
    patch order is written; when it names another directory, the patches
    of that directory are substituted: in both runs the patches of the
    output directory are left as they were copied. *)
Theorem generate_patches_substitutes_sandbox_patches :
  let files := common_patches (lines ["a.patch"]) ++ platform_patches (Some (lines ["b.patch"])) in
  chain foo_bar (B "visit foo") = Some (B "visit bar", 1)
  /\
  (let r := _generate_patches out true (patch_platform linux files None) in
   fst r = Raise AttributeError
   /\ fs (snd r) !! (out // ["a.patch"]) = Some (File (B "visit foo")))
  /\
  (let r := _generate_patches out true (patch_platform linux files (Some ungoogled_patches)) in
   fst r = Ok tt
   /\ fs (snd r) !! (out // ["a.patch"]) = Some (File (B "visit foo"))
   /\ fs (snd r) !! (ungoogled_patches // ["old.patch"]) = Some (File (B "bar old"))).
Proof. vm_compute. repeat split. Qed.

(** When the output directory is the directory [self.sandbox_patches]
    names, its patches are substituted, and the patch without a match
    gets no warning. *)
Example generate_patches_in_sandbox_patches :
  let files := common_patches (lines ["a.patch"]) ++ platform_patches (Some (lines ["b.patch"])) in
  let r := _generate_patches out true (patch_platform linux files (Some out)) in
  fst r = Ok tt
  /\ fs (snd r) !! (out // ["a.patch"]) = Some (File (B "visit bar"))
  /\ fs (snd r) !! (out // ["b.patch"]) = Some (File (B "bar too"))
  /\ fs (snd r) !! (out // ["plain.patch"]) = Some (File (B "nothing"))
  /\ log (snd r) = [Log DEBUG "Using platform patches";
                    Log DEBUG "Running domain substitution over patches..."].
Proof. vm_compute. repeat split. Qed.
End PatchesRuns.

(** * Further properties *)

(** ** The verifier, on all its paths *)
Section VerifierPaths.
Context {hashlib : HashLib} {re : ReLib} {tarfile : TarLib}.

Lemma same_but_log_refl (w : Platform) : same_but_log w w.
Proof. unfold same_but_log. by destruct w. Qed.

Lemma same_but_log_set_log (f : list log_record -> list log_record) (w : Platform) :
  same_but_log w (set_log f w).
Proof. unfold same_but_log. by destruct w. Qed.

Lemma same_but_log_after (f : list log_record -> list log_record) (w w' : Platform) :
  same_but_log (set_log f w) w' -> same_but_log w w'.
Proof. unfold same_but_log. intros H. exact H. Qed.

Lemma check_hash_lines_only_logs (hash_lines : list string) :
  forall w : Platform, same_but_log w (snd (check_hash_lines hash_lines w)).
Proof.
  induction hash_lines as [|hash_line rest IH]; intros w; cbn [check_hash_lines].
  - run. apply same_but_log_refl.
  - run.
    destruct (str_split "  " hash_line) as [|algorithm fields];
      [apply same_but_log_refl|].
    destruct (algorithms_available algorithm); run.
    + destruct (sourcearchive w) as [archive|]; run;
        [|unfold same_but_log; by destruct w].
      destruct (fs w !! archive) as [[data|]|];
        [| unfold same_but_log; by destruct w
         | destruct (is_dir _ _); unfold same_but_log; by destruct w].
      destruct fields as [|hashhex fields]; [unfold same_but_log; by destruct w|].
      destruct (String.eqb _ _).
      * eapply same_but_log_after, same_but_log_after, IH.
      * unfold same_but_log; by destruct w.
    + eapply same_but_log_after, IH.
Qed.

(** X1: whatever the manifest and the archive are, and however the check
    ends, [_check_source_archive] leaves the file system and every
    attribute as they were: the log is all it changes. *)
Theorem check_source_archive_only_logs (w : Platform) :
  same_but_log w (snd (_check_source_archive w)).
Proof.
  unfold _check_source_archive. run.
  destruct (sourcearchive_hashes w) as [hashes|]; [|apply same_but_log_refl].
  run. destruct (fs w !! hashes) as [[manifest|]|];
    [| apply same_but_log_refl | destruct (is_dir _ _); apply same_but_log_refl].
  apply check_hash_lines_only_logs.
Qed.

Lemma line_records_no_error (hash_lines : list string) :
  no_error (concat (line_records <$> hash_lines)).
Proof.
  unfold no_error. induction hash_lines as [|hash_line rest IH]; [constructor|].
  cbn [fmap list_fmap concat]. apply Forall_app. split; [|exact IH].
  unfold line_records, skip_warning.
  destruct (algorithms_available (algorithm_of hash_line)); by repeat constructor.
Qed.

(** Each line that verifies is looked at, in order, and leaves its
    records in the log. *)
Lemma check_hash_lines_records (archive : path) (data : bytes) (hash_lines : list string) :
  Forall (fun l => verifies data l = true) hash_lines ->
  forall w : Platform,
    sourcearchive w = Some archive ->
    fs w !! archive = Some (File data) ->
    check_hash_lines hash_lines w
    = (Ok tt, set_log (fun l => l ++ concat (line_records <$> hash_lines)) w).
Proof.
  induction 1 as [|hash_line rest Hl _ IH]; intros w Ha Hf; cbn [check_hash_lines].
  - run. f_equal. destruct w. unfold set_log. cbn. by rewrite app_nil_r.
  - unfold verifies in Hl. cbn [fmap list_fmap concat].
    unfold line_records at 1, skip_warning, algorithm_of.
    destruct (str_split "  " hash_line) as [|algorithm fields]; [done|].
    cbn [hd]. run.
    destruct (algorithms_available algorithm); run.
    + destruct fields as [|hashhex fields]; [done|].
      rewrite Ha. run. rewrite Hf, Hl. rewrite IH by done.
      f_equal. unfold set_log. cbn. f_equal. by rewrite <- !app_assoc.
    + rewrite IH by done.
      f_equal. unfold set_log. cbn. f_equal. by rewrite <- !app_assoc.
Qed.

(** X2: when every line of the manifest verifies (its algorithm is not
    in the registry, or its digest is the recomputed one), the check goes
    through the whole manifest and returns normally.  The log it leaves
    is the old one followed by the records of the lines, line by line and
    in the order of the manifest: the start record and the match record
    for a line whose algorithm is in the registry, the skip warning for
    one whose algorithm is not; no error record is among them, and nothing
    else has changed. *)
Theorem check_source_archive_all_verify
    (w : Platform) (hashes archive : path) (manifest data : bytes) :
  sourcearchive_hashes w = Some hashes ->
  fs w !! hashes = Some (File manifest) ->
  sourcearchive w = Some archive ->
  fs w !! archive = Some (File data) ->
  Forall (fun l => verifies data l = true) (str_split LF (read_text manifest)) ->
  _check_source_archive w
  = (Ok tt,
     set_log (fun l => l ++ concat (line_records <$> str_split LF (read_text manifest))) w)
  /\ no_error (concat (line_records <$> str_split LF (read_text manifest))).
Proof.
  intros Hh Hm Ha Hf Hall. split; [|apply line_records_no_error].
  unfold _check_source_archive. run. rewrite Hh. run. rewrite Hm.
  by apply (check_hash_lines_records archive data).
Qed.

(** X3: a line that names an available algorithm and has no second field
    (no two-space separator), met before any line that fails to verify,
    makes the check raise [IndexError]; the archive has been read and
    hashed by then, and no error record is logged. *)
Theorem check_source_archive_missing_digest
    (w : Platform) (hashes archive : path) (manifest data : bytes)
    (before after : list string) (hash_line algorithm : string) :
  sourcearchive_hashes w = Some hashes ->
  fs w !! hashes = Some (File manifest) ->
  sourcearchive w = Some archive ->
  fs w !! archive = Some (File data) ->
  str_split LF (read_text manifest) = before ++ hash_line :: after ->
  Forall (fun l => verifies data l = true) before ->
  str_split "  " hash_line = [algorithm] ->
  algorithms_available algorithm = true ->
  exists lg, no_error lg /\
    _check_source_archive w
    = (Raise IndexError,
       set_log (fun l => l ++ lg ++
                  [Log INFO ("Running '" +:+ algorithm +:+ "' hash check...")]) w).
Proof.
  intros Hh Hm Ha Hf Hlines Hbefore Hsplit Havail.
  destruct (check_hash_lines_verifies archive data before Hbefore) as (lg & Hlg & Hrun).
  exists lg. split; [done|].
  unfold _check_source_archive. run. rewrite Hh. run. rewrite Hm.
  rewrite Hlines, Hrun by done.
  cbn [check_hash_lines]. rewrite Hsplit. run. rewrite Havail. run. rewrite Ha. run.
  rewrite Hf. f_equal. unfold set_log. cbn. by rewrite <- !app_assoc.
Qed.

Lemma split_from_nonempty {A : Type} `{EqDecision A} (sep s : list A) :
  forall (skip : nat) (cur : list A), split_from sep s skip cur <> [].
Proof.
  induction s as [|c s IH]; intros skip cur; cbn [split_from]; [done|].
  destruct skip; [|apply IH]. destruct (starts_with sep (c :: s)); [done|apply IH].
Qed.

Lemma str_split_head (sep s : string) :
  nth_error (str_split sep s) 0 = Some (hd "" (str_split sep s)).
Proof.
  unfold str_split, split.
  pose proof (split_from_nonempty (list_ascii_of_string sep) (list_ascii_of_string s) 0 []).
  by destruct (split_from _ _ 0 []).
Qed.

Lemma check_hash_lines_skipped (hash_lines : list string) :
  Forall (fun l => algorithms_available (algorithm_of l) = false) hash_lines ->
  forall w : Platform,
    check_hash_lines hash_lines w
    = (Ok tt, set_log (fun l => l ++ (skip_warning <$> hash_lines)) w).
Proof.
  induction 1 as [|hash_line rest Hl _ IH]; intros w; cbn [check_hash_lines].
  - run. f_equal. destruct w. unfold set_log. cbn. by rewrite app_nil_r.
  - cbv [bind item]. rewrite str_split_head. fold (algorithm_of hash_line).
    run. rewrite Hl. run. rewrite IH.
    f_equal. unfold set_log. cbn. by rewrite <- app_assoc.
Qed.

(** X4: a manifest none of whose lines names an algorithm of the
    registry verifies: the check returns normally with one warning per
    line, and does not open the archive (which need not exist). *)
Theorem check_source_archive_nothing_available
    (w : Platform) (hashes : path) (manifest : bytes) :
  sourcearchive_hashes w = Some hashes ->
  fs w !! hashes = Some (File manifest) ->
  Forall (fun l => algorithms_available (algorithm_of l) = false)
         (str_split LF (read_text manifest)) ->
  _check_source_archive w
  = (Ok tt,
     set_log (fun l => l ++ (skip_warning <$> str_split LF (read_text manifest))) w).
Proof.
  intros Hh Hm Hall. unfold _check_source_archive. run. rewrite Hh. run. rewrite Hm.
  by apply check_hash_lines_skipped.
Qed.
End VerifierPaths.

(** ** List resources *)
Section ListResource.
Context {hashlib : HashLib} {re : ReLib} {tarfile : TarLib}.

Lemma read_list_resource_in_filtered {L : Type} (read_lines : path -> M (list L))
    (len : L -> nat) (file_name : path) (w : Platform) :
  match fst (read_list_resource_in read_lines len file_name w) with
  | Ok l => Forall (fun x => 0 < len x) l
  | Raise _ => True
  end.
Proof.
  assert (Hfilter : forall l, Forall (fun x => 0 < len x)
                                (List.filter (fun x => Nat.ltb 0 (len x)) l)).
  { intros l. apply Forall_forall. intros x Hx.
    apply list_elem_of_In, filter_In in Hx as [_ Hx]. by apply Nat.ltb_lt. }
  unfold read_list_resource_in. run.
  destruct (read_lines (COMMON_RESOURCES // file_name) w) as [[l|e] w1]; [|done].
  destruct (PLATFORM_RESOURCES w1) as [pr|]; [|apply Hfilter].
  destruct (exists_ _ _); [|apply Hfilter].
  destruct (read_lines (pr // file_name) w1) as [[l'|e] w2]; [|done].
  apply Hfilter.
Qed.

(** X5: a list resource that is read has no empty line, in binary mode
    and in text mode alike: blank lines of the common file and of the
    platform file are dropped. *)
Theorem read_list_resource_no_blank (file_name : path) (w : Platform) :
  match fst (_read_list_resource file_name true w) with
  | Ok l => Forall (fun x : bytes => x <> []) l
  | Raise _ => True
  end
  /\ match fst (_read_list_resource file_name false w) with
     | Ok l => Forall (fun x : string => x <> "") l
     | Raise _ => True
     end.
Proof.
  split; cbn [_read_list_resource].
  - pose proof (read_list_resource_in_filtered
                  (fun p => bind (read_bytes p) (fun c => ret (bytes_splitlines c)))
                  (@length byte) file_name w) as H.
    destruct (fst (read_list_resource_in _ _ file_name w)) as [l|]; [|done].
    eapply Forall_impl; [exact H|]. intros x Hx ->. cbn in Hx. lia.
  - pose proof (read_list_resource_in_filtered
                  (fun p => bind (read_str p) (fun c => ret (str_splitlines c)))
                  String.length file_name w) as H.
    destruct (fst (read_list_resource_in _ _ file_name w)) as [l|]; [|done].
    eapply Forall_impl; [exact H|]. intros x Hx ->. cbn in Hx. lia.
Qed.

(** X6: where the platform has a file of the same name, the list is the
    lines of the common file followed by the lines of the platform file,
    in that order and with their repetitions, without the empty
    lines; the only trace is a debug record. *)
Theorem read_list_resource_overlay
    (w : Platform) (platform_resources file_name : path) (common overlay : bytes) :
  PLATFORM_RESOURCES w = Some platform_resources ->
  fs w !! (COMMON_RESOURCES // file_name) = Some (File common) ->
  fs w !! (platform_resources // file_name) = Some (File overlay) ->
  _read_list_resource file_name false w
  = (Ok (List.filter (fun x => Nat.ltb 0 (String.length x))
           (str_splitlines (read_text common) ++ str_splitlines (read_text overlay))),
     set_log (fun l => l ++ [Log DEBUG "Successfully appended platform list"]) w).
Proof.
  intros Hp Hc Ho. cbn [_read_list_resource]. unfold read_list_resource_in. run.
  rewrite Hc. run. rewrite Hp. unfold exists_, is_file. rewrite Ho.
  rewrite orb_true_r. run. by rewrite Ho.
Qed.

Lemma common_path_nonempty (file_name : path) : COMMON_RESOURCES // file_name <> [].
Proof.
  unfold path_join. destruct (is_rooted file_name) eqn:Hr; [by destruct file_name|done].
Qed.

Lemma is_dir_Dir (files : filesystem) (p : path) :
  files !! p = Some Dir -> is_dir files p = true.
Proof. intros Hp. unfold is_dir. destruct p; [done|]. by rewrite Hp. Qed.

Lemma is_dir_missing (files : filesystem) (p : path) :
  p <> [] -> files !! p = None -> is_dir files p = false.
Proof. intros Hne Hp. unfold is_dir. destruct p; [done|]. by rewrite Hp. Qed.

(** X7: the common file is required: when it is missing the read raises
    [FileNotFoundError] for its path and logs nothing, whether or not the
    platform has the file. *)
Theorem read_list_resource_common_missing
    (w : Platform) (file_name : path) (is_binary : bool) :
  fs w !! (COMMON_RESOURCES // file_name) = None ->
  _read_list_resource file_name is_binary w
  = (Raise (FileNotFoundError (COMMON_RESOURCES // file_name)), w).
Proof.
  intros Hc.
  pose proof (is_dir_missing _ _ (common_path_nonempty file_name) Hc) as Hdir.
  destruct is_binary; cbn [_read_list_resource]; unfold read_list_resource_in; run;
    by rewrite Hc, Hdir.
Qed.
End ListResource.

(** ** Locating and downloading the archive *)
Section Locate.
Context {hashlib : HashLib} {re : ReLib} {tarfile : TarLib}.

(** X8: with [force_download] and no [archive_path], the archive is
    fetched even when a local file is there: afterwards the file at
    [destination_dir/chromium-<version>.tar.xz] holds the bytes the URL
    served, and [sourcearchive] names it. *)
Theorem setup_locate_force_download
    (w : Platform) (destination_dir : path) (hashes_path : option path) (served : bytes) :
  remote w !! archive_url (version w) = Some served ->
  is_dir (fs w) (archive_of w destination_dir) = false ->
  is_dir (fs w) (parent (archive_of w destination_dir)) = true ->
  setup_locate false true false destination_dir None hashes_path w
  = (Ok tt,
     set_fs (insert (archive_of w destination_dir) (File served))
       (set_log (fun l => l ++ [Log INFO "Downloading source archive..."])
          (set_sourcearchive (Some (archive_of w destination_dir))
             (Some (hashes_of w destination_dir)) w))).
Proof.
  intros Hremote Hdir Hparent. unfold setup_locate, _download_source_archive, download.
  cbn [andb]. run. fold (archive_of w destination_dir). fold (hashes_of w destination_dir).
  unfold exists_. rewrite Hdir. cbn [orb].
  destruct (is_file (fs w) (archive_of w destination_dir)); cbn [andb negb orb]; run;
    rewrite Hremote; unfold write_bytes; run; by rewrite Hdir, Hparent.
Qed.

(** X9: the conflicting arguments are refused before anything is
    touched: [check_if_exists] with [force_download], an [archive_path]
    with [check_integrity] and no [hashes_path], and an [archive_path]
    with [force_download] each raise, and the state is the one the call
    started from. *)
Theorem setup_chromium_source_conflicts
    (w : Platform) (check_if_exists check_integrity extract_archive use_cleaning_list : bool)
    (destination_dir archive : path) (hashes_path : option path) :
  setup_chromium_source true true check_integrity extract_archive destination_dir
    use_cleaning_list None hashes_path w
  = (Raise (PyException "Conflicting arguments: check_if_exists and force_download"), w)
  /\ setup_chromium_source check_if_exists false true extract_archive destination_dir
       use_cleaning_list (Some archive) None w
     = (Raise (PyException "Hashes path must be set with archive_path"), w)
  /\ setup_chromium_source check_if_exists true false extract_archive destination_dir
       use_cleaning_list (Some archive) hashes_path w
     = (Raise (PyException
                 "Conflicting arguments: force_download with archive_path and hashes_path"), w).
Proof. repeat split. Qed.

(** X10: when the archive is a local file (and, if the integrity is to
    be checked, the hashes file too) and no download is forced, nothing is
    fetched: the file system is left as it is, whatever the URLs serve,
    and the two attributes name the local files. *)
Theorem setup_locate_local_files
    (w : Platform) (check_if_exists check_integrity : bool) (destination_dir : path)
    (hashes_path : option path) :
  is_file (fs w) (archive_of w destination_dir) = true ->
  (check_integrity = true -> is_file (fs w) (hashes_of w destination_dir) = true) ->
  setup_locate check_if_exists false check_integrity destination_dir None hashes_path w
  = (Ok tt,
     set_log (fun l => l ++ [Log INFO "Source archive already exists. Skipping download."]
                ++ (if check_integrity
                    then [Log INFO "Source hashes file already exists. Skipping download."]
                    else []))
       (set_sourcearchive (Some (archive_of w destination_dir))
          (Some (hashes_of w destination_dir)) w)).
Proof.
  intros Ha Hh. unfold setup_locate. rewrite andb_false_r. run.
  fold (archive_of w destination_dir). fold (hashes_of w destination_dir).
  rewrite Ha. rewrite !andb_false_r. cbn [negb orb andb]. run.
  destruct check_integrity; run.
  - rewrite Hh by done. rewrite !andb_false_r. cbn [orb]. run.
    f_equal. unfold set_log, set_sourcearchive. cbn. by rewrite <- app_assoc.
  - f_equal.
Qed.

(** X11: with [check_if_exists] and [force_download] both off, a missing
    archive is not fetched: the log says that it exists, and the
    extraction that follows raises [FileNotFoundError] for its path. *)
Theorem setup_chromium_source_missing_archive
    (w : Platform) (destination_dir : path) :
  exists_ (fs w) (archive_of w destination_dir) = false ->
  setup_chromium_source false false false true destination_dir false None None w
  = (Raise (FileNotFoundError (archive_of w destination_dir)),
     set_log (fun l => l ++ [Log INFO "Source archive already exists. Skipping download.";
                             Log INFO "Extracting source archive into building sandbox..."])
       (set_sourcearchive (Some (archive_of w destination_dir))
          (Some (hashes_of w destination_dir)) w)).
Proof.
  intros Hex. unfold setup_chromium_source, setup_locate, setup_check, setup_extract,
    _extract_source_archive.
  cbn [andb]. run. fold (archive_of w destination_dir). fold (hashes_of w destination_dir).
  rewrite Hex. cbn [andb orb]. run.
  unfold exists_, is_file in Hex. apply orb_false_elim in Hex as [Hdir Hfile].
  rewrite Hdir.
  destruct (fs w !! archive_of w destination_dir) as [[c|]|] eqn:Hl; try done.
  - by rewrite (is_dir_Dir _ _ Hl) in Hdir.
  - f_equal. unfold set_log, set_sourcearchive. cbn. by rewrite <- app_assoc.
Qed.
End Locate.

(** ** The extractor, beyond the partition *)
Section ExtractorPaths.
Context {hashlib : HashLib} {re : ReLib} {tarfile : TarLib}.
Local Abbreviation count := (count_occ string_dec).

Lemma extract_members_app (before rest : list TarInfo) :
  forall (cl : list string) (w : Platform),
    extract_members (before ++ rest) cl w
    = match extract_members before cl w with
      | (Ok cl1, w1) => extract_members rest cl1 w1
      | (Raise e, w1) => (Raise e, w1)
      end.
Proof.
  induction before as [|tarinfo before IH]; intros cl w; [done|].
  cbn [app extract_members]. run.
  destruct (relative_to _ _) as [rp|]; [|done].
  destruct (bool_decide _); [apply IH|].
  destruct (_extract_member _ _ w) as [[u|e] w1]; [apply IH|done].
Qed.

(** X12: a member whose name is not under [chromium-<version>] stops
    the extraction with [ValueError]; the members before it have been
    dealt with, the ones after it are not looked at, and the error record
    logged names the member. *)
Theorem extract_members_outside_prefix
    (before after : list TarInfo) (bad : TarInfo) (cl cl1 : list string)
    (w w1 : Platform) :
  extract_members before cl w = (Ok cl1, w1) ->
  relative_path (version w) bad = None ->
  extract_members (before ++ bad :: after) cl w
  = (Raise ValueError,
     set_log (fun l => l ++ [Log ERROR ("Exception thrown for tar member " +:+ name bad)])
       w1).
Proof.
  intros Hbefore Hbad. rewrite extract_members_app, Hbefore.
  apply extract_members_consume in Hbefore as (_ & _ & Hv & _).
  cbn [extract_members]. run. unfold relative_path in Hbad.
  rewrite Hv, Hbad. done.
Qed.

(** X13: the multiplicity law of the extraction, for any archive and any
    denylist: when the extraction ends, each path is left on the denylist
    as many times as the denylist lists it beyond its entries in the
    archive, and is materialized as many times as the archive holds it
    beyond its entries on the denylist. *)
Theorem extract_source_archive_counts
    (w w' : Platform) (archive : path) (data : bytes) (members : list TarInfo)
    (denylist remaining : list string) (x : string) :
  sourcearchive w = Some archive ->
  fs w !! archive = Some (File data) ->
  tarfile_open data = Some members ->
  _extract_source_archive denylist w = (Ok remaining, w') ->
  count remaining x
  = count denylist x - count (archive_paths (version w) members) x
  /\ count (materialized w w') x
     = count (archive_paths (version w) members) x - count denylist x.
Proof.
  intros Ha Hf Ht Hrun.
  destruct (extract_source_archive_consume _ _ _ _ _ _ _ Ha Hf Ht Hrun) as [_ Hcons].
  split.
  - rewrite <- (consume_pending x _ denylist). by rewrite Hcons.
  - rewrite <- (consume_kept x _ denylist). by rewrite Hcons.
Qed.

Lemma consume_nil (paths : list string) : consume paths [] = (paths, []).
Proof.
  induction paths as [|r paths IH]; [done|]. cbn [consume].
  rewrite bool_decide_eq_false_2 by apply not_elem_of_nil. by rewrite IH.
Qed.

(** X14: with an empty denylist (as when the cleaning list is not used)
    an extraction that ends has materialized every entry of the archive,
    in archive order, and the list is still empty. *)
Theorem extract_source_archive_no_denylist
    (w w' : Platform) (archive : path) (data : bytes) (members : list TarInfo)
    (remaining : list string) :
  sourcearchive w = Some archive ->
  fs w !! archive = Some (File data) ->
  tarfile_open data = Some members ->
  _extract_source_archive [] w = (Ok remaining, w') ->
  remaining = []
  /\ materialized w w' = archive_paths (version w) members
  /\ length (archive_paths (version w) members) = length members.
Proof.
  intros Ha Hf Ht Hrun.
  destruct (extract_source_archive_consume _ _ _ _ _ _ _ Ha Hf Ht Hrun) as [Hlen Hcons].
  rewrite consume_nil in Hcons. by injection Hcons as <- <-.
Qed.
End ExtractorPaths.

(** ** The regex cache as a memo *)
Section RegexMemo.
Context {hashlib : HashLib} {re : ReLib} {tarfile : TarLib}.

Lemma parse_expressions_state (expressions : list bytes) :
  forall (w : Platform) (r : res unit) (w' : Platform),
    parse_expressions expressions w = (r, w') ->
    exists c, w' = set_domain_regex_cache c w
              /\ (is_Some (_domain_regex_cache w) -> is_Some c).
Proof.
  induction expressions as [|expression rest IH]; intros w r w'; cbn [parse_expressions].
  - run. intros [= _ <-]. exists (_domain_regex_cache w). split; [by destruct w|done].
  - destruct (split (B "#") expression) as [|pattern [|replacement more]]; run.
    + intros [= _ <-]. exists (_domain_regex_cache w). split; [by destruct w|done].
    + destruct (re_compile pattern); intros [= _ <-];
        exists (_domain_regex_cache w); (split; [by destruct w|done]).
    + destruct (re_compile pattern) as [compiled|].
      * intros [c [-> Hc]]%IH. exists c. split; [done|].
        intros _. apply Hc. unfold cache_append. cbn. by eexists.
      * intros [= _ <-]. exists (_domain_regex_cache w). split; [by destruct w|done].
Qed.

(** However a call ends, it leaves the cache set; what it returns, when
    it returns, is the cache. *)
Lemma get_parsed_domain_regexes_state (w : Platform) (r : res (list regex_pair))
    (w' : Platform) :
  _get_parsed_domain_regexes w = (r, w') ->
  exists c, _domain_regex_cache w' = Some c
            /\ (forall rules, r = Ok rules -> rules = c).
Proof.
  unfold _get_parsed_domain_regexes. run.
  destruct (_domain_regex_cache w) as [c0|] eqn:Hcache; run.
  - rewrite Hcache. intros [= <- <-]. exists c0. split; [done|]. by intros rules [= <-].
  - unfold line.
    destruct (_read_list_resource DOMAIN_REGEX_LIST true
                (set_domain_regex_cache (Some []) w)) as [[expressions|e] w1] eqn:Hread;
      pose proof (read_list_resource_state _ true _ _ _ Hread) as Hw1.
    + assert (Hs : is_Some (_domain_regex_cache w1)) by (rewrite Hw1; by eexists).
      destruct (parse_expressions expressions w1) as [[[]|e] w2] eqn:Hparse;
        apply parse_expressions_state in Hparse as (c & -> & Hc);
        destruct (Hc Hs) as [c' ->].
      * intros [= <- <-]. exists c'. split; [done|]. by intros rules [= <-].
      * intros [= <- <-]. exists c'. split; [done|]. by intros rules [=].
    + intros [= <- <-]. exists []. split; [by rewrite Hw1|]. by intros rules [=].
Qed.

(** X15: the rules are parsed once: after a call that returned, every
    later call returns the same rules and changes nothing, whatever has
    become of the files in between (a changed or deleted regex list is not
    read again). *)
Theorem get_parsed_domain_regexes_memo
    (w w1 : Platform) (rules : list regex_pair) (f : filesystem -> filesystem) :
  _get_parsed_domain_regexes w = (Ok rules, w1) ->
  _get_parsed_domain_regexes (set_fs f w1) = (Ok rules, set_fs f w1).
Proof.
  intros (c & Hc & Hr)%get_parsed_domain_regexes_state.
  rewrite (Hr rules eq_refl). unfold _get_parsed_domain_regexes. run. rewrite Hc. run.
  by rewrite Hc.
Qed.

End RegexMemo.

(** ** What the substitution engine leaves alone *)
Section SubstitutionFrame.
Context {hashlib : HashLib} {re : ReLib} {tarfile : TarLib}.

Lemma is_file_rewritten (files : filesystem) (p : path) (content content' : bytes)
    (q : path) :
  files !! p = Some (File content) ->
  is_file (<[p := File content']> files) q = is_file files q.
Proof.
  intros Hp. unfold is_file. destruct (decide (q = p)) as [->|Hne].
  - by rewrite lookup_insert_eq, Hp.
  - by rewrite lookup_insert_ne.
Qed.

Lemma is_dir_rewritten (files : filesystem) (p : path) (content content' : bytes)
    (q : path) :
  files !! p = Some (File content) ->
  is_dir (<[p := File content']> files) q = is_dir files q.
Proof.
  intros Hp. unfold is_dir. destruct q as [|c q]; [done|].
  destruct (decide (c :: q = p)) as [<-|Hne].
  - by rewrite lookup_insert_eq, Hp.
  - by rewrite lookup_insert_ne.
Qed.

(** One file of the list: the engine either goes on with the rest or
    stops, and the file system is the one it had, or that one with new
    content in the file just read. *)
Lemma domain_substitute_head (regex_list : list regex_pair) (p : path)
    (rest : list path) (log_warnings : bool) (w : Platform) :
  exists w1,
    (_domain_substitute regex_list (p :: rest) log_warnings w
     = _domain_substitute regex_list rest log_warnings w1
     \/ exists e, _domain_substitute regex_list (p :: rest) log_warnings w = (Raise e, w1))
    /\ (fs w1 = fs w
        \/ exists content content',
             fs w !! p = Some (File content)
             /\ fs w1 = <[p := File content']> (fs w))
    /\ _ran_domain_substitution w1 = _ran_domain_substitution w.
Proof.
  cbn [_domain_substitute]. run.
  destruct (fs w !! p) as [[content|]|] eqn:Hp.
  - rewrite substitute_content_chain.
    destruct (chain regex_list content) as [[content' total]|].
    + cbn [Nat.add]. destruct (Nat.ltb 0 total).
      * eexists. split; [by left|]. split; [right; by eauto|done].
      * destruct log_warnings; eexists; (split; [by left|]); by split; [left|].
    + eexists. split; [right; by eexists|]. by split; [left|].
  - eexists. split; [right; by eexists|]. by split; [left|].
  - destruct (is_dir (fs w) p); eexists; (split; [right; by eexists|]); by split; [left|].
Qed.

Lemma domain_substitute_frame (regex_list : list regex_pair) (file_list : list path)
    (log_warnings : bool) :
  forall (w : Platform) (q : path),
    let w' := snd (_domain_substitute regex_list file_list log_warnings w) in
    (q ∉ file_list -> fs w' !! q = fs w !! q)
    /\ is_file (fs w') q = is_file (fs w) q
    /\ is_dir (fs w') q = is_dir (fs w) q
    /\ (fst (_domain_substitute regex_list file_list log_warnings w) = Ok tt
        \/ exists e, fst (_domain_substitute regex_list file_list log_warnings w) = Raise e)
    /\ _ran_domain_substitution w' = _ran_domain_substitution w.
Proof.
  induction file_list as [|p rest IH]; intros w q; cbn zeta.
  - cbn [_domain_substitute]. run. repeat split; by left.
  - destruct (domain_substitute_head regex_list p rest log_warnings w)
      as (w1 & Hrun & Hfs & Hflag).
    assert (Hq : (q ∉ p :: rest -> fs w1 !! q = fs w !! q)
                 /\ is_file (fs w1) q = is_file (fs w) q
                 /\ is_dir (fs w1) q = is_dir (fs w) q).
    { destruct Hfs as [->|(content & content' & Hp & ->)]; [done|].
      rewrite (is_file_rewritten _ _ _ _ q Hp), (is_dir_rewritten _ _ _ _ q Hp).
      split; [|done]. intros Hn. apply lookup_insert_ne. intros ->. apply Hn. left. }
    destruct Hq as (Hq1 & Hq2 & Hq3).
    destruct Hrun as [->|[e ->]].
    + destruct (IH w1 q) as (H1 & H2 & H3 & H4 & H5). cbn zeta in *.
      repeat split.
      * intros Hn. rewrite H1, Hq1; [done..|]. intros ?. apply Hn. by right.
      * by rewrite H2.
      * by rewrite H3.
      * done.
      * by rewrite H5.
    + cbn [fst snd]. repeat split; try done. right. by eexists.
Qed.

(** X17: a file that is not in the target list is never modified,
    however the run ends, even where its content matches a rule. *)
Theorem domain_substitute_other_files (regex_list : list regex_pair)
    (file_list : list path) (log_warnings : bool) (w : Platform) (q : path) :
  q ∉ file_list ->
  fs (snd (_domain_substitute regex_list file_list log_warnings w)) !! q = fs w !! q.
Proof. intros Hq. by apply (domain_substitute_frame regex_list file_list log_warnings w q). Qed.

(** X18: the engine rewrites content and nothing else: it creates no
    file, removes none, and every path is a file or a directory after the
    run exactly when it was one before, however the run ends. *)
Theorem domain_substitute_same_tree (regex_list : list regex_pair)
    (file_list : list path) (log_warnings : bool) (w : Platform) (q : path) :
  is_file (fs (snd (_domain_substitute regex_list file_list log_warnings w))) q
  = is_file (fs w) q
  /\ is_dir (fs (snd (_domain_substitute regex_list file_list log_warnings w))) q
     = is_dir (fs w) q.
Proof.
  destruct (domain_substitute_frame regex_list file_list log_warnings w q)
    as (_ & H2 & H3 & _). by split.
Qed.

(** X19: a target that does not exist stops the batch: the engine raises
    [FileNotFoundError] for it, logs an error record with its path, and
    the targets listed after it are not processed. *)
Theorem domain_substitute_missing_target (regex_list : list regex_pair) (p : path)
    (rest : list path) (log_warnings : bool) (w : Platform) :
  p <> [] ->
  fs w !! p = None ->
  _domain_substitute regex_list (p :: rest) log_warnings w
  = (Raise (FileNotFoundError p),
     set_log (fun l => l ++ [Log ERROR ("Exception thrown for path " +:+ path_str p)]) w).
Proof.
  intros Hne Hp. cbn [_domain_substitute]. run. rewrite Hp.
  by rewrite (is_dir_missing _ _ Hne Hp).
Qed.
End SubstitutionFrame.

(** ** [setup_build_sandbox] *)
Section BuildSandboxProperties.
Context {hashlib : HashLib} {re : ReLib} {tarfile : TarLib}.

Lemma parse_expressions_frame (expressions : list bytes) (w : Platform) :
  fs (snd (parse_expressions expressions w)) = fs w
  /\ _ran_domain_substitution (snd (parse_expressions expressions w))
     = _ran_domain_substitution w
  /\ sandbox_root (snd (parse_expressions expressions w)) = sandbox_root w.
Proof.
  destruct (parse_expressions expressions w) as [r w'] eqn:Hrun.
  apply parse_expressions_state in Hrun as (c & -> & _). done.
Qed.

Lemma get_parsed_domain_regexes_frame (w : Platform) :
  fs (snd (_get_parsed_domain_regexes w)) = fs w
  /\ _ran_domain_substitution (snd (_get_parsed_domain_regexes w))
     = _ran_domain_substitution w
  /\ sandbox_root (snd (_get_parsed_domain_regexes w)) = sandbox_root w.
Proof.
  unfold _get_parsed_domain_regexes. run.
  destruct (_domain_regex_cache w) as [c0|]; run; [done|].
  unfold line.
  destruct (_read_list_resource DOMAIN_REGEX_LIST true
              (set_domain_regex_cache (Some []) w)) as [[expressions|e] w1] eqn:Hread;
    pose proof (read_list_resource_state _ true _ _ _ Hread) as Hw1.
  - pose proof (parse_expressions_frame expressions w1) as (H1 & H2 & H3).
    destruct (parse_expressions expressions w1) as [[[]|e] w2]; cbn [fst snd] in *;
      rewrite H1, H2, H3, Hw1; done.
  - cbn [snd]. by rewrite Hw1.
Qed.

Lemma setup_build_sandbox_frame (w : Platform) (q : path) :
  let r := setup_build_sandbox true w in
  _ran_domain_substitution (snd r)
  = match fst r with
    | Ok _ => true
    | Raise _ => _ran_domain_substitution w
    end
  /\ is_file (fs (snd r)) q = is_file (fs w) q
  /\ is_dir (fs (snd r)) q = is_dir (fs w) q.
Proof.
  cbn zeta. unfold setup_build_sandbox. run.
  set (w0 := set_log _ w).
  pose proof (get_parsed_domain_regexes_frame w0) as (Hfs1 & Hflag1 & _).
  destruct (_get_parsed_domain_regexes w0) as [[regex_list|e] w1]; cbn [fst snd] in *;
    [|by rewrite Hfs1, Hflag1].
  unfold line.
  destruct (_read_list_resource DOMAIN_SUBSTITUTION_LIST false w1)
    as [[lines|e] w2] eqn:Hread;
    pose proof (read_list_resource_state _ false _ _ _ Hread) as Hw2;
    [|cbn [fst snd]; rewrite Hw2; cbn [fs set_log _ran_domain_substitution];
      by rewrite Hfs1, Hflag1].
  match goal with |- context [_domain_substitute ?rl ?fl true w2] =>
    pose proof (domain_substitute_frame rl fl true w2 q) as (_ & Hf & Hd & Hres & Hflag);
    cbn zeta in *;
    destruct (_domain_substitute rl fl true w2) as [[[]|e] w3] end;
    cbn [fst snd fs _ran_domain_substitution set_ran_domain_substitution] in *;
    rewrite Hf, Hd, ?Hflag, Hw2;
    cbn [fs set_log _ran_domain_substitution];
    by rewrite Hfs1, ?Hflag1.
Qed.

(** X20: after [setup_build_sandbox] the flag [_ran_domain_substitution]
    is on exactly when the substitution ran to its end: a run that raises
    (regex list, target list or a target failing) leaves the flag as it
    was. *)
Theorem setup_build_sandbox_flag (w : Platform) :
  _ran_domain_substitution (snd (setup_build_sandbox true w))
  = match fst (setup_build_sandbox true w) with
    | Ok _ => true
    | Raise _ => _ran_domain_substitution w
    end.
Proof. apply (setup_build_sandbox_frame w []). Qed.

(** X21: [setup_build_sandbox] rewrites the content of target files and
    nothing else: no path of the file system is created or removed, and
    files stay files and directories stay directories, however the run
    ends. *)
Theorem setup_build_sandbox_same_tree (w : Platform) (q : path) :
  is_file (fs (snd (setup_build_sandbox true w))) q = is_file (fs w) q
  /\ is_dir (fs (snd (setup_build_sandbox true w))) q = is_dir (fs w) q.
Proof. apply (setup_build_sandbox_frame w q). Qed.
End BuildSandboxProperties.

(** ** [__init__] *)

Ltac run_init :=
  cbv [bind get ret raise modify logger];
  cbn [fs log extracted sourcearchive sourcearchive_hashes version sandbox_root
       sandbox_patches PLATFORM_RESOURCES _domain_regex_cache remote
       _ran_domain_substitution
       set_log set_fs set_sourcearchive set_domain_regex_cache
       set_version_root set_ran_domain_substitution fst snd negb orb].

Section Init.
Context {hashlib : HashLib} {re : ReLib} {tarfile : TarLib}.

Lemma is_dir_insert_Dir (files : filesystem) (d q : path) :
  is_dir files q = true -> is_dir (<[d := Dir]> files) q = true.
Proof.
  unfold is_dir. destruct q as [|c q]; [done|].
  destruct (decide (c :: q = d)) as [<-|Hne].
  - by rewrite lookup_insert_eq.
  - by rewrite lookup_insert_ne.
Qed.

Lemma is_dir_inserted (files : filesystem) (d : path) :
  is_dir (<[d := Dir]> files) d = true.
Proof. unfold is_dir. destruct d; [done|]. by rewrite lookup_insert_eq. Qed.

(** X22: when [__init__] returns, the sandbox root and the metadata
    directory under it are directories, the version and the root are the
    ones given (the root [build_sandbox] by default), and the archive
    attributes, the substitution flag and the regex cache are cleared. *)
Theorem init_postcondition (v revision : string) (root : option path) (w : Platform) :
  let r := __init__ v revision root w in
  let root' := default SANDBOX_ROOT root in
  match fst r with
  | Ok _ =>
      is_dir (fs (snd r)) root' = true
      /\ is_dir (fs (snd r)) (root' // UNGOOGLED_DIR) = true
      /\ version (snd r) = v
      /\ sandbox_root (snd r) = root'
      /\ sourcearchive (snd r) = None
      /\ sourcearchive_hashes (snd r) = None
      /\ _ran_domain_substitution (snd r) = false
      /\ _domain_regex_cache (snd r) = None
  | Raise _ => True
  end.
Proof.
  cbn zeta. unfold __init__, mkdir. run_init.
  replace (match root with Some r => r | None => SANDBOX_ROOT end)
    with (default SANDBOX_ROOT root) by (by destruct root).
  set (root' := default SANDBOX_ROOT root).
  destruct (exists_ (fs w) root') eqn:Hex.
  - destruct (is_dir (fs w) root') eqn:Hdir; run_init; [|done].
    destruct (exists_ (fs w) (root' // UNGOOGLED_DIR)) eqn:Hex2.
    + destruct (is_dir (fs w) (root' // UNGOOGLED_DIR)) eqn:Hdir2; run_init; done.
    + run_init. rewrite Hex2.
      destruct (is_dir (fs w) (parent (root' // UNGOOGLED_DIR))); run_init.
      * repeat split; [by apply is_dir_insert_Dir | apply is_dir_inserted].
      * destruct (exists_ (fs w) (parent (root' // UNGOOGLED_DIR))); run_init; done.
  - run_init. rewrite Hex.
    destruct (is_dir (fs w) (parent root')); run_init;
      [|destruct (exists_ (fs w) (parent root')); run_init; done].
    destruct (exists_ (<[root' := Dir]> (fs w)) (root' // UNGOOGLED_DIR)) eqn:Hex2.
    + destruct (is_dir (<[root' := Dir]> (fs w)) (root' // UNGOOGLED_DIR)) eqn:Hdir2;
        run_init; [|done].
      repeat split; [apply is_dir_inserted | done].
    + run_init. rewrite Hex2.
      destruct (is_dir (<[root' := Dir]> (fs w)) (parent (root' // UNGOOGLED_DIR)));
        run_init.
      * repeat split; [apply is_dir_insert_Dir, is_dir_inserted | apply is_dir_inserted].
      * destruct (exists_ (<[root' := Dir]> (fs w)) (parent (root' // UNGOOGLED_DIR)));
          run_init; done.
Qed.

(** X23: a sandbox root that exists and is not a directory is refused:
    [__init__] raises and the file system is left as it is. *)
Theorem init_root_not_a_directory (v revision : string) (root : option path)
    (w : Platform) :
  exists_ (fs w) (default SANDBOX_ROOT root) = true ->
  is_dir (fs w) (default SANDBOX_ROOT root) = false ->
  __init__ v revision root w
  = (Raise (PyException "sandbox_root exists, but is not a directory"),
     set_version_root v (default SANDBOX_ROOT root) w).
Proof.
  intros Hex Hdir. unfold __init__. run_init.
  replace (match root with Some r => r | None => SANDBOX_ROOT end)
    with (default SANDBOX_ROOT root) by (by destruct root).
  by rewrite Hex, Hdir.
Qed.

(** X24: on a sandbox that is already set up (the root and the metadata
    directory are directories), [__init__] creates nothing and logs
    nothing: only the attributes are set. *)
Theorem init_existing_sandbox (v revision : string) (root : option path) (w : Platform) :
  is_dir (fs w) (default SANDBOX_ROOT root) = true ->
  is_dir (fs w) (default SANDBOX_ROOT root // UNGOOGLED_DIR) = true ->
  __init__ v revision root w
  = (Ok tt,
     set_domain_regex_cache None
       (set_ran_domain_substitution false
          (set_sourcearchive None None
             (set_version_root v (default SANDBOX_ROOT root) w)))).
Proof.
  intros Hdir Hdir2. unfold __init__. run_init.
  replace (match root with Some r => r | None => SANDBOX_ROOT end)
    with (default SANDBOX_ROOT root) by (by destruct root).
  unfold exists_. rewrite Hdir. cbn [orb negb]. run_init. by rewrite Hdir2.
Qed.

(** X25: the sandbox root is made with a plain [mkdir]: when neither it
    nor the directory above it exists, [__init__] raises
    [FileNotFoundError] for the root, having logged that it creates it,
    and makes no directory. *)
Theorem init_missing_parent (v revision : string) (root : option path) (w : Platform) :
  exists_ (fs w) (default SANDBOX_ROOT root) = false ->
  exists_ (fs w) (parent (default SANDBOX_ROOT root)) = false ->
  __init__ v revision root w
  = (Raise (FileNotFoundError (default SANDBOX_ROOT root)),
     set_log (fun l => l ++ [Log INFO "Sandbox root does not exist. Creating..."])
       (set_version_root v (default SANDBOX_ROOT root) w)).
Proof.
  intros Hex Hpar. unfold __init__, mkdir. run_init.
  replace (match root with Some r => r | None => SANDBOX_ROOT end)
    with (default SANDBOX_ROOT root) by (by destruct root).
  rewrite Hex. run_init. rewrite Hex, Hpar.
  unfold exists_ in Hpar. apply orb_false_elim in Hpar as [-> _]. done.
Qed.
End Init.

(** ** Runs of the further properties *)
Section FurtherRuns.
Import Inputs MoreInputs.
Existing Instance hashlib_sha1.
Existing Instance re_literal.
Existing Instance tarfile_example.

Lemma check_source_archive_all_verify_witness :
  _check_source_archive (platform good_manifest)
  = (Ok tt,
     set_log (fun l => l ++ [Log INFO "Running 'sha1' hash check...";
                             Log DEBUG "'sha1' hash matches";
                             Log WARNING "Hash algorithm '' not available. Skipping..."])
       (platform good_manifest))
  /\ no_error [Log INFO "Running 'sha1' hash check...";
               Log DEBUG "'sha1' hash matches";
               Log WARNING "Hash algorithm '' not available. Skipping..."].
Proof.
  change [Log INFO "Running 'sha1' hash check...";
          Log DEBUG "'sha1' hash matches";
          Log WARNING "Hash algorithm '' not available. Skipping..."]
    with (concat (line_records <$> str_split LF (read_text good_manifest))).
  apply (check_source_archive_all_verify (platform good_manifest)
           ["chromium-1.tar.xz.hashes"] ["chromium-1.tar.xz"] good_manifest archive_bytes);
    try (vm_compute; reflexivity).
  vm_compute. repeat constructor.
Defined.

Lemma check_source_archive_missing_digest_witness :
  exists lg, no_error lg /\
    _check_source_archive (platform (lines ["sha1"]))
    = (Raise IndexError,
       set_log (fun l => l ++ lg ++ [Log INFO "Running 'sha1' hash check..."])
         (platform (lines ["sha1"]))).
Proof.
  apply (check_source_archive_missing_digest (platform (lines ["sha1"]))
           ["chromium-1.tar.xz.hashes"] ["chromium-1.tar.xz"] (lines ["sha1"]) archive_bytes
           [] [""] "sha1" "sha1");
    try (vm_compute; reflexivity).
  constructor.
Defined.

Lemma check_source_archive_nothing_available_witness :
  _check_source_archive (platform (lines ["crc32  cbf43926"]))
  = (Ok tt,
     set_log (fun l => l ++ (skip_warning <$> ["crc32  cbf43926"; ""]))
       (platform (lines ["crc32  cbf43926"]))).
Proof.
  apply (check_source_archive_nothing_available
           (platform (lines ["crc32  cbf43926"]))
           ["chromium-1.tar.xz.hashes"]
           (lines ["crc32  cbf43926"]));
    try (vm_compute; reflexivity).
  vm_compute. repeat constructor.
Defined.

Lemma read_list_resource_overlay_witness :
  _read_list_resource CLEANING_LIST false overlay_platform
  = (Ok ["a"; "b"; "b"; "c"],
     set_log (fun l => l ++ [Log DEBUG "Successfully appended platform list"])
       overlay_platform).
Proof.
  exact (read_list_resource_overlay overlay_platform ["resources"; "linux"] CLEANING_LIST
           (lines ["a"; ""; "b"]) (lines ["b"; "c"]) eq_refl eq_refl eq_refl).
Defined.

Lemma read_list_resource_common_missing_witness :
  _read_list_resource CLEANING_LIST false (regex_platform [])
  = (Raise (FileNotFoundError ["resources"; "common"; "cleaning_list"]), regex_platform []).
Proof.
  apply (read_list_resource_common_missing (regex_platform []) CLEANING_LIST false).
  vm_compute. reflexivity.
Defined.

Lemma setup_locate_force_download_witness :
  setup_locate false true false [] None None served_platform
  = (Ok tt,
     set_fs (insert ["chromium-1.tar.xz"] (File (B "fresh")))
       (set_log (fun l => l ++ [Log INFO "Downloading source archive..."])
          (set_sourcearchive (Some ["chromium-1.tar.xz"]) (Some ["chromium-1.tar.xz.hashes"])
             served_platform))).
Proof.
  apply (setup_locate_force_download served_platform [] None (B "fresh"));
    vm_compute; reflexivity.
Defined.

Lemma setup_locate_local_files_witness :
  setup_locate true false true [] None None served_platform
  = (Ok tt,
     set_log (fun l => l ++ [Log INFO "Source archive already exists. Skipping download."]
                ++ [Log INFO "Source hashes file already exists. Skipping download."])
       (set_sourcearchive (Some ["chromium-1.tar.xz"]) (Some ["chromium-1.tar.xz.hashes"])
          served_platform)).
Proof.
  apply (setup_locate_local_files served_platform true true [] None).
  - vm_compute. reflexivity.
  - intros _. vm_compute. reflexivity.
Defined.

Lemma setup_chromium_source_missing_archive_witness :
  setup_chromium_source false false false true [] false None None (regex_platform [])
  = (Raise (FileNotFoundError ["chromium-1.tar.xz"]),
     set_log (fun l => l ++ [Log INFO "Source archive already exists. Skipping download.";
                             Log INFO "Extracting source archive into building sandbox..."])
       (set_sourcearchive (Some ["chromium-1.tar.xz"]) (Some ["chromium-1.tar.xz.hashes"])
          (regex_platform []))).
Proof.
  apply (setup_chromium_source_missing_archive (regex_platform []) []).
  vm_compute. reflexivity.
Defined.

Lemma extract_members_outside_prefix_witness :
  let w := platform good_manifest in
  extract_members (members ++ stray :: members) ["a/b.txt"] w
  = (Raise ValueError,
     set_log (fun l => l ++ [Log ERROR "Exception thrown for tar member elsewhere/x.txt"])
       (snd (extract_members members ["a/b.txt"] w))).
Proof.
  intros w.
  apply (extract_members_outside_prefix members members stray ["a/b.txt"] [] w);
    vm_compute; reflexivity.
Defined.

Lemma extract_source_archive_counts_witness :
  let w := platform_of twice_bytes good_manifest ["a/b.txt"] in
  count_occ string_dec [] "a/b.txt"
  = count_occ string_dec ["a/b.txt"] "a/b.txt"
    - count_occ string_dec (archive_paths "1" twice_members) "a/b.txt"
  /\ count_occ string_dec (materialized w (snd (_extract_source_archive ["a/b.txt"] w)))
       "a/b.txt"
     = count_occ string_dec (archive_paths "1" twice_members) "a/b.txt"
       - count_occ string_dec ["a/b.txt"] "a/b.txt".
Proof.
  intros w.
  apply (extract_source_archive_counts w (snd (_extract_source_archive ["a/b.txt"] w))
           ["chromium-1.tar.xz"] twice_bytes twice_members ["a/b.txt"] [] "a/b.txt");
    vm_compute; reflexivity.
Defined.

Lemma extract_source_archive_no_denylist_witness :
  let w := platform good_manifest in
  @nil string = []
  /\ materialized w (snd (_extract_source_archive [] w)) = archive_paths "1" members
  /\ length (archive_paths "1" members) = length members.
Proof.
  intros w.
  apply (extract_source_archive_no_denylist w (snd (_extract_source_archive [] w))
           ["chromium-1.tar.xz"] archive_bytes members []);
    vm_compute; reflexivity.
Defined.

Lemma get_parsed_domain_regexes_memo_witness :
  let w1 := snd (_get_parsed_domain_regexes (regex_platform ["foo#bar"])) in
  _get_parsed_domain_regexes (set_fs (fun _ => ∅) w1) = (Ok foo_bar, set_fs (fun _ => ∅) w1).
Proof.
  intros w1.
  apply (get_parsed_domain_regexes_memo (regex_platform ["foo#bar"]) w1 foo_bar).
  vm_compute. reflexivity.
Defined.


Lemma domain_substitute_other_files_witness :
  let w := regex_platform ["foo#bar"] in
  fs (snd (_domain_substitute foo_bar [two] true w)) !! one = fs w !! one.
Proof.
  intros w. apply (domain_substitute_other_files foo_bar [two] true w one).
  by apply (bool_decide_unpack _).
Defined.

Lemma domain_substitute_missing_target_witness :
  let w := regex_platform ["foo#bar"] in
  _domain_substitute foo_bar [["build_sandbox"; "gone.cc"]; one] true w
  = (Raise (FileNotFoundError ["build_sandbox"; "gone.cc"]),
     set_log (fun l => l ++ [Log ERROR "Exception thrown for path build_sandbox/gone.cc"]) w).
Proof.
  intros w.
  apply (domain_substitute_missing_target foo_bar ["build_sandbox"; "gone.cc"] [one] true w);
    [done | vm_compute; reflexivity].
Defined.

Lemma init_root_not_a_directory_witness :
  let w := bare_platform [(["build_sandbox"], File (B "in the way"))] in
  __init__ "1" "r1" None w
  = (Raise (PyException "sandbox_root exists, but is not a directory"),
     set_version_root "1" ["build_sandbox"] w).
Proof.
  intros w. apply (init_root_not_a_directory "1" "r1" None w); vm_compute; reflexivity.
Defined.

Lemma init_existing_sandbox_witness :
  let w := snd (__init__ "1" "r1" None (bare_platform [])) in
  __init__ "2" "r2" None w
  = (Ok tt,
     set_domain_regex_cache None
       (set_ran_domain_substitution false
          (set_sourcearchive None None (set_version_root "2" ["build_sandbox"] w)))).
Proof.
  intros w. apply (init_existing_sandbox "2" "r2" None w); vm_compute; reflexivity.
Defined.

Lemma init_missing_parent_witness :
  let w := bare_platform [] in
  __init__ "1" "r1" (Some ["work"; "sandbox"]) w
  = (Raise (FileNotFoundError ["work"; "sandbox"]),
     set_log (fun l => l ++ [Log INFO "Sandbox root does not exist. Creating..."])
       (set_version_root "1" ["work"; "sandbox"] w)).
Proof.
  intros w. apply (init_missing_parent "1" "r1" (Some ["work"; "sandbox"]) w);
    vm_compute; reflexivity.
Defined.
End FurtherRuns.
